(** * Molecule regression on [ogbg-molesol] with a GCN and MinCut pooling

    A model of [examples/graph_prediction/ogbg-mol-esol_mincut.py].

    The script is glue code: every statement is a call into the benchmark
    package, the deep-learning framework, the graph library or the Python
    run time.  Those calls are kept abstract.  A [Library] answers every
    external operation, either with a value or with an exception, and may
    change its own state.  The script is a computation in a monad that
    threads the library state, records every operation it issues together
    with its answer, and stops at the first exception nobody catches.  What
    is proved about the script holds for every library.

    The file has five parts: the program (values, monad, built-ins, the
    script, a model of the training loop, a small library to run against),
    the vocabulary in which its runs are described, the lemmas about the
    monad and the script, the properties of the script, and further
    properties that hold of every run, completed or not.  The [import]
    statements at the head of the script are not modelled. *)

From Stdlib Require Import ZArith QArith String List Bool Lia Permutation.
From ExtLib Require Import Structures.Monad Structures.MonadExc.
Import ListNotations.
Import MonadNotation.
Local Open Scope monad_scope.
Local Open Scope string_scope.
Local Open Scope Z_scope.
Local Open Scope list_scope.

Set Implicit Arguments.
Set Warnings "-register-all".

(* ===================================================================== *)
(** * Part I: the program *)
(* ===================================================================== *)

(** ** Python values *)

(** The values the script handles.  Objects owned by a library (datasets,
    graphs, tensors, layers, models, loaders, arrays) are references into
    the library's state.  A float literal is kept as the rational it
    denotes. *)
Inductive PyVal : Type :=
| VNone
| VBool (b : bool)
| VInt (z : Z)
| VFloat (q : Q)
| VStr (s : string)
| VList (l : list PyVal)
| VTuple (l : list PyVal)
| VDict (d : list (string * PyVal))
| VRef (a : N)
| VExn (cls : string).

(** What is called: an imported name, an object (a layer applied to its
    inputs), or a method of an object. *)
Inductive Callee : Type :=
| Global (name : string)
| Object (o : PyVal)
| Method (o : PyVal) (name : string).

(** The operations whose meaning belongs to the libraries and the run
    time: calls with positional and keyword arguments, attribute reads,
    subscripts, and iteration.  [OIter] stands for a whole iteration ([iter],
    then [next] until exhaustion) and yields the elements as a list. *)
Inductive Op : Type :=
| OCall (f : Callee) (args : list PyVal) (kwargs : list (string * PyVal))
| OGetAttr (o : PyVal) (name : string)
| OGetItem (o : PyVal) (key : PyVal)
| OIter (o : PyVal).

Inductive Result : Type :=
| Returned (v : PyVal)
| Raised (e : PyVal).

Definition Event : Type := (Op * Result)%type.

(** The external world: a state and the answer to every operation. *)
Record Library : Type := {
  World : Type;
  handle : Op -> World -> Result * World
}.

(** What the operating system hands to the interpreter. *)
Record Process : Type := {
  argv : list string;
  environ : list (string * string)
}.

(** ** The monad of scripts *)

Inductive Outcome (A : Type) : Type :=
| Done (a : A)
| Uncaught (e : PyVal).
Arguments Uncaught {A} e.

Section Interpreter.
Context (L : Library).

Record Run (A : Type) : Type := mkRun {
  outcome : Outcome A;
  trace : list Event;
  final : World L
}.

Definition M (A : Type) : Type := Process -> World L -> Run A.

Definition m_ret {A} (a : A) : M A :=
  fun _ w => mkRun (Done a) [] w.

Definition m_bind {A B} (m : M A) (k : A -> M B) : M B :=
  fun p w =>
    let r := m p w in
    match outcome r with
    | Done a =>
        let r' := k a p (final r) in
        mkRun (outcome r') (trace r ++ trace r') (final r')
    | Uncaught e => mkRun (Uncaught e) (trace r) (final r)
    end.

Definition m_raise {A} (e : PyVal) : M A :=
  fun _ w => mkRun (Uncaught e) [] w.

(** [try: m  except: h] *)
Definition m_catch {A} (m : M A) (h : PyVal -> M A) : M A :=
  fun p w =>
    let r := m p w in
    match outcome r with
    | Done a => r
    | Uncaught e =>
        let r' := h e p (final r) in
        mkRun (outcome r') (trace r ++ trace r') (final r')
    end.

(** One external operation.  The library answers from its own state: what
    the process was started with reaches it only if the script passes it
    on. *)
Definition call (op : Op) : M PyVal :=
  fun _ w =>
    let (r, w') := handle L op w in
    mkRun (match r with Returned v => Done v | Raised e => Uncaught e end)
          [(op, r)] w'.

(** [sys.argv] and [os.environ.get]. *)
Definition sys_argv : M (list string) :=
  fun p w => mkRun (Done (argv p)) [] w.

Definition getenv (name : string) : M (option string) :=
  fun p w =>
    mkRun (Done (option_map snd
                   (find (fun kv => String.eqb (fst kv) name) (environ p))))
          [] w.
End Interpreter.

Arguments mkRun {L A} _ _ _.
Arguments outcome {L A} _.
Arguments trace {L A} _.
Arguments final {L A} _.

#[global] Instance Monad_M (L : Library) : Monad (M L) :=
  {| ret := @m_ret L; bind := @m_bind L |}.

#[global] Instance Exc_M (L : Library) : MonadExc PyVal (M L) :=
  {| raise := @m_raise L; catch := @m_catch L |}.

(** ** Built-ins evaluated by the interpreter itself *)

(** [max] over the node counts.  A node count is an [int]; on an empty
    sequence [max] raises [ValueError], on an operand that is no [int] the
    model raises [TypeError] where Python would dispatch on the operand. *)
Fixpoint py_ints (vs : list PyVal) : option (list Z) :=
  match vs with
  | [] => Some []
  | VInt z :: vs' => option_map (cons z) (py_ints vs')
  | _ :: _ => None
  end.

Definition max_of (zs : list Z) : option Z :=
  match zs with
  | [] => None
  | z :: zs' => Some (fold_left Z.max zs' z)
  end.

Definition py_max {L} (vs : list PyVal) : M L Z :=
  match py_ints vs with
  | Some zs =>
      match max_of zs with
      | Some n => ret n
      | None => raise (VExn "ValueError")
      end
  | None => raise (VExn "TypeError")
  end.

(** [for x in o]: the elements in order. *)
Definition iterate {L} (o : PyVal) : M L (list PyVal) :=
  v <- call L (OIter o) ;;
  match v with
  | VList xs => ret xs
  | _ => raise (VExn "TypeError")
  end.

(** [a, b = v]: [v] is iterated and must yield exactly two elements. *)
Definition unpack2 {L} (v : PyVal) : M L (PyVal * PyVal) :=
  xs <- iterate v ;;
  match xs with
  | [a; b] => ret (a, b)
  | _ => raise (VExn "ValueError")
  end.

(** [f x for x in xs], the elements computed in order. *)
Fixpoint for_each {L} (f : PyVal -> M L PyVal) (xs : list PyVal)
  : M L (list PyVal) :=
  match xs with
  | [] => ret []
  | x :: xs' =>
      v <- f x ;;
      vs <- for_each f xs' ;;
      ret (v :: vs)
  end.

(** [o.name], [o[key]], [name(args, kwargs)] for an imported [name],
    [layer(args)], [o.meth(args, kwargs)] and [print(text)]. *)
Definition getattr {L} (o : PyVal) (name : string) : M L PyVal :=
  call L (OGetAttr o name).

Definition getitem {L} (o key : PyVal) : M L PyVal :=
  call L (OGetItem o key).

Definition call_global {L} (name : string) (args : list PyVal)
           (kwargs : list (string * PyVal)) : M L PyVal :=
  call L (OCall (Global name) args kwargs).

Definition apply_layer {L} (layer : PyVal) (args : list PyVal) : M L PyVal :=
  call L (OCall (Object layer) args []).

Definition invoke {L} (o : PyVal) (meth : string) (args : list PyVal)
           (kwargs : list (string * PyVal)) : M L PyVal :=
  call L (OCall (Method o meth) args kwargs).

Definition print {L} (text : PyVal) : M L PyVal :=
  call L (OCall (Global "print") [text] []).

(** The value bound to a key in a keyword-argument list or a dictionary. *)
Fixpoint kwarg (k : string) (kwargs : list (string * PyVal)) : option PyVal :=
  match kwargs with
  | [] => None
  | (k', v) :: rest => if String.eqb k k' then Some v else kwarg k rest
  end.

(** ** The script *)

(** PARAMETERS *)
Definition learning_rate : Q := 1e-3.
Definition epochs : Z := 10.
Definition batch_size : Z := 32.

Definition dataset_name : string := "ogbg-molesol".

(** The statements of the script, top to bottom.  A generator or list
    comprehension over a dataset is one iteration followed by one attribute
    read per graph. *)
Definition script {L : Library} : M L unit :=
  (* LOAD DATA *)
  ogb_dataset <- call_global "GraphPropPredDataset" [] [("name", VStr dataset_name)] ;;
  dataset <- call_global "OGB" [ogb_dataset] [] ;;
  (* Parameters *)
  graphs <- iterate dataset ;;
  nodes <- for_each (fun g => getattr g "n_nodes") graphs ;;
  N <- py_max nodes ;;
  F <- getattr dataset "n_node_features" ;;
  S <- getattr dataset "n_edge_features" ;;
  n_out <- getattr dataset "n_labels" ;;
  (* Train/test split *)
  idx <- invoke ogb_dataset "get_idx_split" [] [] ;;
  idx_tr <- getitem idx (VStr "train") ;;
  idx_va <- getitem idx (VStr "valid") ;;
  idx_te <- getitem idx (VStr "test") ;;
  dataset_tr <- getitem dataset idx_tr ;;
  dataset_va <- getitem dataset idx_va ;;
  dataset_te <- getitem dataset idx_te ;;
  (* BUILD MODEL *)
  X_in <- call_global "Input" [] [("shape", VTuple [VNone; F])] ;;
  A_in <- call_global "Input" [] [("shape", VTuple [VNone; VNone])] ;;
  gcn_1 <- call_global "GCNConv" [VInt 32] [("activation", VStr "relu")] ;;
  X_1 <- apply_layer gcn_1 [VList [X_in; A_in]] ;;
  pool <- call_global "MinCutPool" [VInt (N / 2)] [] ;;
  pooled <- apply_layer pool [VList [X_1; A_in]] ;;
  '(X_1, A_1) <- unpack2 pooled ;;
  gcn_2 <- call_global "GCNConv" [VInt 32] [("activation", VStr "relu")] ;;
  X_2 <- apply_layer gcn_2 [VList [X_1; A_1]] ;;
  gsp <- call_global "GlobalSumPool" [] [] ;;
  X_3 <- apply_layer gsp [X_2] ;;
  dense <- call_global "Dense" [n_out] [] ;;
  output <- apply_layer dense [X_3] ;;
  (* Build model *)
  model <- call_global "Model" [] [("inputs", VList [X_in; A_in]); ("outputs", output)] ;;
  opt <- call_global "Adam" [] [("lr", VFloat learning_rate)] ;;
  invoke model "compile" [] [("optimizer", opt); ("loss", VStr "mse")] ;;
  invoke model "summary" [] [] ;;
  (* FIT MODEL *)
  loader_tr <- call_global "BatchLoader" [dataset_tr] [("batch_size", VInt batch_size)] ;;
  loader_va <- call_global "BatchLoader" [dataset_va] [("batch_size", VInt batch_size)] ;;
  steps_tr <- getattr loader_tr "steps_per_epoch" ;;
  steps_va <- getattr loader_va "steps_per_epoch" ;;
  stopper <- call_global "EarlyStopping" []
               [("patience", VInt 10); ("restore_best_weights", VBool true)] ;;
  invoke model "fit" [loader_tr]
    [("steps_per_epoch", steps_tr);
     ("epochs", VInt epochs);
     ("validation_data", loader_va);
     ("validation_steps", steps_va);
     ("callbacks", VList [stopper])] ;;
  (* EVALUATE MODEL *)
  print (VStr "Testing model") ;;
  evaluator <- call_global "Evaluator" [] [("name", VStr dataset_name)] ;;
  loader_te <- call_global "BatchLoader" [dataset_te]
                 [("batch_size", VInt batch_size); ("epochs", VInt 1)] ;;
  y_pred <- invoke model "predict" [loader_te] [("batch_size", VInt batch_size)] ;;
  graphs_te <- iterate dataset_te ;;
  ys <- for_each (fun g => getattr g "y") graphs_te ;;
  y_true <- call_global "np.vstack" [VList ys] [] ;;
  ogb_score <- invoke evaluator "eval"
                 [VDict [("y_true", y_true); ("y_pred", y_pred)]] [] ;;
  rmse <- getitem ogb_score (VStr "rmse") ;;
  text <- invoke (VStr "Done. RMSE: {:.4f}") "format" [rmse] [] ;;
  print text ;;
  ret tt.

(** ** The training loop of the framework *)

(** Modelled from the spec: what the early-stopping callback of the
    external framework finds at the end of an epoch.  The monitored quantity
    improved, it did not, or it was not available. *)
Inductive Verdict : Type :=
| Improved | Stalled | Unmonitored.

(** Modelled from the spec: the training routine [fit] and its
    early-stopping callback, which belong to the external framework and
    are not part of the sources.  Training runs one epoch after another,
    up to [epochs] of them.  At the end of each epoch the callback resets
    its counter [wait] when the monitored quantity improved, leaves it when
    the quantity is not available, and otherwise increments it and stops
    training once it has reached [patience].  The result is the number of
    epochs trained. *)
Fixpoint fit_loop (verdict : nat -> Verdict) (patience : nat)
         (todo epoch wait : nat) : nat :=
  match todo with
  | O => epoch
  | S todo' =>
      match verdict epoch with
      | Improved => fit_loop verdict patience todo' (S epoch) 0
      | Unmonitored => fit_loop verdict patience todo' (S epoch) wait
      | Stalled =>
          if (patience <=? S wait)%nat then S epoch
          else fit_loop verdict patience todo' (S epoch) (S wait)
      end
  end.

(** Modelled from the spec: the number of epochs a call of [fit] trains,
    out of [total], under an early-stopping callback of the given
    [patience]. *)
Definition epochs_trained (verdict : nat -> Verdict) (patience total : nat)
  : nat :=
  fit_loop verdict patience total 0 0.

(** ** A small library to run the script against *)

(** A stateless stand-in for the three packages.  A graph is the dictionary
    of its attributes, a dataset is the list of its graphs, the benchmark
    dataset carries the graphs and the index split, and every other object
    is the record of the call that made it.  [broken] names an imported
    callable that raises instead of returning. *)
Module Toy.

Definition graph (n : Z) (y : Q) : PyVal :=
  VDict [("n_nodes", VInt n); ("y", VFloat y)].

Definition split : PyVal :=
  VDict [("train", VList [VInt 0; VInt 1]);
         ("valid", VList [VInt 2]);
         ("test", VList [VInt 3])].

Definition benchmark (graphs : list PyVal) : PyVal :=
  VDict [("graphs", VList graphs); ("split", split)].

Fixpoint select (graphs : list PyVal) (keys : list PyVal) : option (list PyVal) :=
  match keys with
  | [] => Some []
  | VInt i :: keys' =>
      match nth_error graphs (Z.to_nat i), select graphs keys' with
      | Some g, Some gs => Some (g :: gs)
      | _, _ => None
      end
  | _ :: _ => None
  end.

Definition found (o : option PyVal) (err : string) : Result :=
  match o with
  | Some v => Returned v
  | None => Raised (VExn err)
  end.

Definition record (name : string) (args : list PyVal)
           (kwargs : list (string * PyVal)) : PyVal :=
  VTuple [VStr name; VList args; VDict kwargs].

Definition construct (graphs : list PyVal) (name : string)
           (args : list PyVal) (kwargs : list (string * PyVal)) : Result :=
  if String.eqb name "GraphPropPredDataset" then Returned (benchmark graphs)
  else if String.eqb name "OGB" then
    match args with
    | [VDict d] => found (kwarg "graphs" d) "AttributeError"
    | _ => Raised (VExn "TypeError")
    end
  else if String.eqb name "print" then Returned VNone
  else Returned (record name args kwargs).

Definition layer_call (layer : PyVal) (args : list PyVal) : Result :=
  match layer with
  | VTuple (VStr name :: _) =>
      if String.eqb name "MinCutPool"
      then Returned (VList [record "X_pool" [layer] []; record "A_pool" [layer] []])
      else Returned (record "tensor" (layer :: args) [])
  | _ => Raised (VExn "TypeError")
  end.

Definition method_call (o : PyVal) (name : string) (args : list PyVal) : Result :=
  if String.eqb name "get_idx_split" then
    match o with
    | VDict d => found (kwarg "split" d) "AttributeError"
    | _ => Raised (VExn "AttributeError")
    end
  else if String.eqb name "eval" then Returned (VDict [("rmse", VFloat 0.5)])
  else if String.eqb name "format" then Returned (VStr "Done. RMSE: 0.5000")
  else if String.eqb name "predict" then Returned (record "predictions" args [])
  else Returned VNone.

Definition attribute (o : PyVal) (name : string) : Result :=
  match o with
  | VDict d => found (kwarg name d) "AttributeError"
  | VList _ =>
      if String.eqb name "n_node_features" then Returned (VInt 9)
      else if String.eqb name "n_edge_features" then Returned (VInt 3)
      else if String.eqb name "n_labels" then Returned (VInt 1)
      else Raised (VExn "AttributeError")
  | VTuple _ =>
      if String.eqb name "steps_per_epoch" then Returned (VInt 1)
      else Raised (VExn "AttributeError")
  | _ => Raised (VExn "AttributeError")
  end.

Definition subscript (o key : PyVal) : Result :=
  match o, key with
  | VDict d, VStr k => found (kwarg k d) "KeyError"
  | VList gs, VList keys => found (option_map VList (select gs keys)) "IndexError"
  | _, _ => Raised (VExn "TypeError")
  end.

Definition answer (graphs : list PyVal) (broken : string) (op : Op) : Result :=
  match op with
  | OCall (Global name) args kwargs =>
      if String.eqb name broken then Raised (VExn "ConnectionError")
      else construct graphs name args kwargs
  | OCall (Object layer) args _ => layer_call layer args
  | OCall (Method o name) args _ => method_call o name args
  | OGetAttr o name => attribute o name
  | OGetItem o key => subscript o key
  | OIter (VList xs) => Returned (VList xs)
  | OIter _ => Raised (VExn "TypeError")
  end.

Definition library (graphs : list PyVal) (broken : string) : Library :=
  {| World := unit; handle := fun op w => (answer graphs broken op, w) |}.

(** Four molecules; the last one is the test split. *)
Definition molecules : list PyVal :=
  [graph 4 0.25; graph 6 0.5; graph 5 0.75; graph 9 1].

Definition process : Process := {| argv := ["script.py"]; environ := [] |}.

End Toy.

(** The small library, and the run of the script against it. *)
Definition toy : Library := Toy.library Toy.molecules "".

Definition toy_run : Run toy unit := @script toy Toy.process tt.


(* ===================================================================== *)
(** * Part II: describing runs *)
(* ===================================================================== *)

(** ** Completed runs *)

(** [m], started by process [p] in world [w], returns [a], having issued
    [tr] and left the world in [w']. *)
Definition completes {L A} (m : M L A) (p : Process) (w : World L)
           (a : A) (tr : list Event) (w' : World L) : Prop :=
  m p w = mkRun (Done a) tr w'.

(** ** Reading a trace *)

Definition ev (op : Op) (v : PyVal) : Event := (op, Returned v).

(** [op] was issued and answered with [v]. *)
Definition returned (tr : list Event) (op : Op) (v : PyVal) : Prop :=
  In (ev op v) tr.

(** The last event of a trace. *)
Definition ends_with (tr : list Event) (e : Event) : Prop :=
  exists pre, tr = pre ++ [e].

Definition all_returned (tr : list Event) : Prop :=
  Forall (fun e => exists v, snd e = Returned v) tr.

Definition method_named (name : string) (e : Event) : bool :=
  match fst e with
  | OCall (Method _ m) _ _ => String.eqb m name
  | _ => false
  end.

Definition global_named (name : string) (e : Event) : bool :=
  match fst e with
  | OCall (Global g) _ _ => String.eqb g name
  | _ => false
  end.

Definition one_of (names : list string) (name : string) : bool :=
  existsb (String.eqb name) names.

Definition is_int (z : Z) (v : PyVal) : bool :=
  match v with VInt z' => Z.eqb z z' | _ => false end.

Definition is_float (q : Q) (v : PyVal) : bool :=
  match v with VFloat q' => Qeq_bool q q' | _ => false end.

Definition is_str (s : string) (v : PyVal) : bool :=
  match v with VStr s' => String.eqb s s' | _ => false end.

Definition passes (k : string) (ok : PyVal -> bool)
           (kwargs : list (string * PyVal)) : bool :=
  match kwarg k kwargs with
  | Some v => ok v
  | None => false
  end.

(** The events of reading one attribute off each element of a list. *)
Definition attr_events (name : string) (os vs : list PyVal) : list Event :=
  map (fun ov => (OGetAttr (fst ov) name, Returned (snd ov))) (combine os vs).

(** The pooling layers built against the small library when the one graph
    of the test split is [test_graph]. *)
Definition pools_built (test_graph : PyVal) : list Op :=
  map fst
    (filter (global_named "MinCutPool")
       (trace (@script
                 (Toy.library [Toy.graph 4 0.25; Toy.graph 6 0.5;
                               Toy.graph 5 0.75; test_graph] "")
                 Toy.process tt))).

(** ** The steps of the workflow *)

(** The five steps, and the step an operation belongs to.  Attribute
    reads, subscripts, iteration, loaders, formatting and printing serve
    several steps and are left unclassified. *)
Inductive Phase : Type :=
| Loading | Splitting | Assembly | Training | Scoring.

Definition phase_eqb (a b : Phase) : bool :=
  match a, b with
  | Loading, Loading | Splitting, Splitting | Assembly, Assembly
  | Training, Training | Scoring, Scoring => true
  | _, _ => false
  end.

Definition phase_of (op : Op) : option Phase :=
  match op with
  | OCall (Global name) _ _ =>
      if one_of ["GraphPropPredDataset"; "OGB"] name then Some Loading
      else if one_of ["Input"; "GCNConv"; "MinCutPool"; "GlobalSumPool";
                      "Dense"; "Model"; "Adam"] name then Some Assembly
      else if one_of ["EarlyStopping"] name then Some Training
      else if one_of ["Evaluator"; "np.vstack"] name then Some Scoring
      else None
  | OCall (Object _) _ _ => Some Assembly
  | OCall (Method _ name) _ _ =>
      if one_of ["get_idx_split"] name then Some Splitting
      else if one_of ["compile"; "summary"] name then Some Assembly
      else if one_of ["fit"] name then Some Training
      else if one_of ["predict"; "eval"] name then Some Scoring
      else None
  | OGetAttr _ _ | OGetItem _ _ | OIter _ => None
  end.

Definition in_phase (ph : Phase) (e : Event) : bool :=
  match phase_of (fst e) with
  | Some ph' => phase_eqb ph ph'
  | None => false
  end.

Definition phases (tr : list Event) : list Phase :=
  flat_map (fun e => match phase_of (fst e) with
                     | Some ph => [ph]
                     | None => []
                     end) tr.

(** Consecutive repetitions collapsed: the steps in the order in which a
    run enters them. *)
Fixpoint squash (phs : list Phase) : list Phase :=
  match phs with
  | [] => []
  | ph :: rest =>
      match rest with
      | [] => [ph]
      | ph' :: _ => if phase_eqb ph ph' then squash rest else ph :: squash rest
      end
  end.

Definition steps (tr : list Event) : list Phase := squash (phases tr).

(** ** Data flow *)

Section Dataflow.
Variable tr : list Event.

(** [part] is the subset of [dataset] selected by the split's entry
    [key]. *)
Definition split_part (key : string) (dataset part : PyVal) : Prop :=
  exists ogb_dataset idx indices,
    returned tr (OCall (Global "OGB") [ogb_dataset] []) dataset /\
    returned tr (OCall (Method ogb_dataset "get_idx_split") [] []) idx /\
    returned tr (OGetItem idx (VStr key)) indices /\
    returned tr (OGetItem dataset indices) part.

(** [model] is the object that [fit] was called on. *)
Definition fitted (model : PyVal) : Prop :=
  exists args kwargs history,
    returned tr (OCall (Method model "fit") args kwargs) history.

(** [y_pred] is what [model] predicts over a one-pass batching loader of
    [part]. *)
Definition predictions (model part y_pred : PyVal) : Prop :=
  exists loader,
    returned tr (OCall (Global "BatchLoader") [part]
                   [("batch_size", VInt batch_size); ("epochs", VInt 1)])
             loader /\
    returned tr (OCall (Method model "predict") [loader]
                   [("batch_size", VInt batch_size)])
             y_pred.

(** [y_true] stacks the targets [g.y] of the graphs of [part]. *)
Definition targets (part y_true : PyVal) : Prop :=
  exists graphs ys,
    returned tr (OIter part) (VList graphs) /\
    Forall2 (fun g y => returned tr (OGetAttr g "y") y) graphs ys /\
    returned tr (OCall (Global "np.vstack") [VList ys] []) y_true.

(** [rmse] is the ['rmse'] entry of what the benchmark evaluator answers
    on [y_true] and [y_pred]. *)
Definition evaluator_rmse (y_true y_pred rmse : PyVal) : Prop :=
  exists evaluator ogb_score,
    returned tr (OCall (Global "Evaluator") [] [("name", VStr dataset_name)])
             evaluator /\
    returned tr (OCall (Method evaluator "eval")
                   [VDict [("y_true", y_true); ("y_pred", y_pred)]] [])
             ogb_score /\
    returned tr (OGetItem ogb_score (VStr "rmse")) rmse.

(** [text] is [rmse] formatted into the final message. *)
Definition score_line (rmse text : PyVal) : Prop :=
  returned tr (OCall (Method (VStr "Done. RMSE: {:.4f}") "format") [rmse] [])
           text.

(** [loader] batches [part] with the configured batch size, and [steps] is
    its number of steps per epoch. *)
Definition batch_loader (part loader steps : PyVal) : Prop :=
  returned tr (OCall (Global "BatchLoader") [part]
                 [("batch_size", VInt batch_size)])
           loader /\
  returned tr (OGetAttr loader "steps_per_epoch") steps.

Definition early_stopping (patience : Z) (stopper : PyVal) : Prop :=
  returned tr (OCall (Global "EarlyStopping") []
                 [("patience", VInt patience);
                  ("restore_best_weights", VBool true)])
           stopper.

(** What the pooling layer answers unpacks into the pooled features and the
    pooled adjacency. *)
Definition pooled_pair (pooled X_1p A_1 : PyVal) : Prop :=
  returned tr (OIter pooled) (VList [X_1p; A_1]).

(** The three parts of the split are selected out of [dataset]. *)
Definition parts_of (idx dataset : PyVal) : Prop :=
  forall key, In key ["train"; "valid"; "test"] ->
    exists indices part,
      returned tr (OGetItem idx (VStr key)) indices /\
      returned tr (OGetItem dataset indices) part.
End Dataflow.

(** ** Output *)





(** ** The shape of single calls *)

Fixpoint same_names (names : list string) (kwargs : list (string * PyVal))
  : bool :=
  match names, kwargs with
  | [], [] => true
  | n :: names', (k, _) :: kwargs' => String.eqb n k && same_names names' kwargs'
  | _, _ => false
  end.

Definition one_element (v : PyVal) : bool :=
  match v with VList [_] => true | _ => false end.

Definition no_args (args : list PyVal) : bool :=
  match args with [] => true | _ => false end.

(** Wherever a configuration value reaches a library, it is the in-file
    constant: the optimizer's learning rate, the loaders' and the
    prediction's batch size, the number of epochs of [fit]. *)
Definition config_fixed (e : Event) : bool :=
  match fst e with
  | OCall (Global cls) _ kwargs =>
      if String.eqb cls "Adam" then passes "lr" (is_float learning_rate) kwargs
      else if String.eqb cls "BatchLoader"
           then passes "batch_size" (is_int batch_size) kwargs
      else true
  | OCall (Method _ meth) _ kwargs =>
      if String.eqb meth "fit" then passes "epochs" (is_int epochs) kwargs
      else if String.eqb meth "predict"
           then passes "batch_size" (is_int batch_size) kwargs
      else true
  | _ => true
  end.

(** A call that opens the benchmark dataset or builds its evaluator passes
    the script's dataset identifier as [name], and nothing else. *)
Definition names_dataset (e : Event) : bool :=
  match fst e with
  | OCall (Global cls) args kwargs =>
      if one_of ["GraphPropPredDataset"; "Evaluator"] cls
      then no_args args && same_names ["name"] kwargs
           && passes "name" (is_str dataset_name) kwargs
      else true
  | _ => true
  end.

(** A call of [fit] has one positional argument and exactly the five
    keywords [steps_per_epoch], [epochs], [validation_data],
    [validation_steps] and [callbacks]; the epochs are the configured ones
    and the callbacks are a list of one. *)
Definition fit_shape (e : Event) : bool :=
  match fst e with
  | OCall (Method _ meth) args kwargs =>
      if String.eqb meth "fit"
      then (length args =? 1)%nat
           && same_names ["steps_per_epoch"; "epochs"; "validation_data";
                          "validation_steps"; "callbacks"] kwargs
           && passes "epochs" (is_int epochs) kwargs
           && passes "callbacks" one_element kwargs
      else true
  | _ => true
  end.

(** The layers and the optimizer are built with the arguments of the
    script: 32 units and ReLU for a graph convolution, an integer number of
    clusters for the pooling, no argument for the global pooling, one for
    the dense layer, the configured learning rate for Adam; [compile] gets
    an optimizer and the mean-squared-error loss. *)
Definition layer_shape (e : Event) : bool :=
  match fst e with
  | OCall (Global cls) args kwargs =>
      if String.eqb cls "GCNConv"
      then match args with [v] => is_int 32 v | _ => false end
           && same_names ["activation"] kwargs
           && passes "activation" (is_str "relu") kwargs
      else if String.eqb cls "MinCutPool"
      then match args with [VInt _] => true | _ => false end
           && same_names [] kwargs
      else if String.eqb cls "GlobalSumPool"
      then no_args args && same_names [] kwargs
      else if String.eqb cls "Dense"
      then (length args =? 1)%nat && same_names [] kwargs
      else if String.eqb cls "Adam"
      then no_args args && same_names ["lr"] kwargs
           && passes "lr" (is_float learning_rate) kwargs
      else true
  | OCall (Method _ meth) args kwargs =>
      if String.eqb meth "compile"
      then no_args args && same_names ["optimizer"; "loss"] kwargs
           && passes "loss" (is_str "mse") kwargs
      else true
  | _ => true
  end.

(** ** The assembled model *)

Section Chain.
Variables (F n_out : PyVal) (clusters : Z).
Variables (X_in A_in gcn_1 X_1 pool pooled X_1p A_1 gcn_2 X_2 gsp X_3
           dense output model opt compiled summary : PyVal).

(** The layer stack, as the calls that build it: two inputs (node
    features and adjacency), a 32-unit graph convolution with ReLU on
    them, MinCut pooling of its output with the input adjacency, a second
    32-unit graph convolution with ReLU on the pooled features and the
    pooled adjacency, a global sum pooling, a dense layer of [n_out]
    units; then the model from the two inputs to the dense output,
    compiled with Adam at the configured learning rate and the
    mean-squared-error loss, and summarised. *)
Definition model_chain : list Event :=
  [ ev (OCall (Global "Input") [] [("shape", VTuple [VNone; F])]) X_in;
    ev (OCall (Global "Input") [] [("shape", VTuple [VNone; VNone])]) A_in;
    ev (OCall (Global "GCNConv") [VInt 32] [("activation", VStr "relu")]) gcn_1;
    ev (OCall (Object gcn_1) [VList [X_in; A_in]] []) X_1;
    ev (OCall (Global "MinCutPool") [VInt clusters] []) pool;
    ev (OCall (Object pool) [VList [X_1; A_in]] []) pooled;
    ev (OCall (Global "GCNConv") [VInt 32] [("activation", VStr "relu")]) gcn_2;
    ev (OCall (Object gcn_2) [VList [X_1p; A_1]] []) X_2;
    ev (OCall (Global "GlobalSumPool") [] []) gsp;
    ev (OCall (Object gsp) [X_2] []) X_3;
    ev (OCall (Global "Dense") [n_out] []) dense;
    ev (OCall (Object dense) [X_3] []) output;
    ev (OCall (Global "Model") []
          [("inputs", VList [X_in; A_in]); ("outputs", output)]) model;
    ev (OCall (Global "Adam") [] [("lr", VFloat learning_rate)]) opt;
    ev (OCall (Method model "compile") []
          [("optimizer", opt); ("loss", VStr "mse")]) compiled;
    ev (OCall (Method model "summary") [] []) summary ].
End Chain.

(** ** Properties of computations *)

(** Either no operation raised, or exactly one did: it is the last event
    of the run and the run ends with the very exception it raised. *)
Definition fail_fast {A} (o : Outcome A) (tr : list Event) : Prop :=
  all_returned tr \/
  exists pre op e,
    tr = pre ++ [(op, Raised e)] /\ all_returned pre /\ o = Uncaught e.

Definition Propagating {L A} (m : M L A) : Prop :=
  forall p w, fail_fast (outcome (m p w)) (trace (m p w)).

(** Every operation [m] issues, in any run, satisfies [P]. *)
Definition Emits {L A} (P : Event -> bool) (m : M L A) : Prop :=
  forall p w, forallb P (trace (m p w)) = true.

(** [m] does not look at what the process was started with. *)
Definition ArgvBlind {L A} (m : M L A) : Prop :=
  forall p1 p2 w, m p1 w = m p2 w.

(** ** The trace of a completed run *)

(** The values bound to the script's variables in a completed run: one
    field per assignment, [v_X_1p] for the second binding of [X_1], and
    one field for the value of each expression statement. *)
Record Bindings : Type := {
  v_graphs : list PyVal;
  v_nodes : list Z;
  v_N : Z;
  v_graphs_te : list PyVal;
  v_ys : list PyVal;
  v_ogb_dataset : PyVal;
  v_dataset : PyVal;
  v_F : PyVal;
  v_S : PyVal;
  v_n_out : PyVal;
  v_idx : PyVal;
  v_idx_tr : PyVal;
  v_idx_va : PyVal;
  v_idx_te : PyVal;
  v_dataset_tr : PyVal;
  v_dataset_va : PyVal;
  v_dataset_te : PyVal;
  v_X_in : PyVal;
  v_A_in : PyVal;
  v_gcn_1 : PyVal;
  v_X_1 : PyVal;
  v_pool : PyVal;
  v_pooled : PyVal;
  v_X_1p : PyVal;
  v_A_1 : PyVal;
  v_gcn_2 : PyVal;
  v_X_2 : PyVal;
  v_gsp : PyVal;
  v_X_3 : PyVal;
  v_dense : PyVal;
  v_output : PyVal;
  v_model : PyVal;
  v_opt : PyVal;
  v_compiled : PyVal;
  v_summary : PyVal;
  v_loader_tr : PyVal;
  v_loader_va : PyVal;
  v_steps_tr : PyVal;
  v_steps_va : PyVal;
  v_stopper : PyVal;
  v_history : PyVal;
  v_printed_1 : PyVal;
  v_evaluator : PyVal;
  v_loader_te : PyVal;
  v_y_pred : PyVal;
  v_y_true : PyVal;
  v_ogb_score : PyVal;
  v_rmse : PyVal;
  v_text : PyVal;
  v_printed_2 : PyVal
}.

Section Trace.
Variable b : Bindings.

Definition load_trace : list Event :=
  [ ev (OCall (Global "GraphPropPredDataset") [] [("name", VStr dataset_name)])
       (v_ogb_dataset b);
    ev (OCall (Global "OGB") [v_ogb_dataset b] []) (v_dataset b);
    ev (OIter (v_dataset b)) (VList (v_graphs b)) ]
  ++ attr_events "n_nodes" (v_graphs b) (map VInt (v_nodes b))
  ++ [ ev (OGetAttr (v_dataset b) "n_node_features") (v_F b);
       ev (OGetAttr (v_dataset b) "n_edge_features") (v_S b);
       ev (OGetAttr (v_dataset b) "n_labels") (v_n_out b) ].

Definition split_trace : list Event :=
  [ ev (OCall (Method (v_ogb_dataset b) "get_idx_split") [] []) (v_idx b);
    ev (OGetItem (v_idx b) (VStr "train")) (v_idx_tr b);
    ev (OGetItem (v_idx b) (VStr "valid")) (v_idx_va b);
    ev (OGetItem (v_idx b) (VStr "test")) (v_idx_te b);
    ev (OGetItem (v_dataset b) (v_idx_tr b)) (v_dataset_tr b);
    ev (OGetItem (v_dataset b) (v_idx_va b)) (v_dataset_va b);
    ev (OGetItem (v_dataset b) (v_idx_te b)) (v_dataset_te b) ].

Definition build_trace : list Event :=
  [ ev (OCall (Global "Input") [] [("shape", VTuple [VNone; v_F b])]) (v_X_in b);
    ev (OCall (Global "Input") [] [("shape", VTuple [VNone; VNone])]) (v_A_in b);
    ev (OCall (Global "GCNConv") [VInt 32] [("activation", VStr "relu")])
       (v_gcn_1 b);
    ev (OCall (Object (v_gcn_1 b)) [VList [v_X_in b; v_A_in b]] []) (v_X_1 b);
    ev (OCall (Global "MinCutPool") [VInt (v_N b / 2)] []) (v_pool b);
    ev (OCall (Object (v_pool b)) [VList [v_X_1 b; v_A_in b]] []) (v_pooled b);
    ev (OIter (v_pooled b)) (VList [v_X_1p b; v_A_1 b]);
    ev (OCall (Global "GCNConv") [VInt 32] [("activation", VStr "relu")])
       (v_gcn_2 b);
    ev (OCall (Object (v_gcn_2 b)) [VList [v_X_1p b; v_A_1 b]] []) (v_X_2 b);
    ev (OCall (Global "GlobalSumPool") [] []) (v_gsp b);
    ev (OCall (Object (v_gsp b)) [v_X_2 b] []) (v_X_3 b);
    ev (OCall (Global "Dense") [v_n_out b] []) (v_dense b);
    ev (OCall (Object (v_dense b)) [v_X_3 b] []) (v_output b);
    ev (OCall (Global "Model") []
          [("inputs", VList [v_X_in b; v_A_in b]); ("outputs", v_output b)])
       (v_model b);
    ev (OCall (Global "Adam") [] [("lr", VFloat learning_rate)]) (v_opt b);
    ev (OCall (Method (v_model b) "compile") []
          [("optimizer", v_opt b); ("loss", VStr "mse")])
       (v_compiled b);
    ev (OCall (Method (v_model b) "summary") [] []) (v_summary b) ].

Definition fit_trace : list Event :=
  [ ev (OCall (Global "BatchLoader") [v_dataset_tr b]
          [("batch_size", VInt batch_size)])
       (v_loader_tr b);
    ev (OCall (Global "BatchLoader") [v_dataset_va b]
          [("batch_size", VInt batch_size)])
       (v_loader_va b);
    ev (OGetAttr (v_loader_tr b) "steps_per_epoch") (v_steps_tr b);
    ev (OGetAttr (v_loader_va b) "steps_per_epoch") (v_steps_va b);
    ev (OCall (Global "EarlyStopping") []
          [("patience", VInt 10); ("restore_best_weights", VBool true)])
       (v_stopper b);
    ev (OCall (Method (v_model b) "fit") [v_loader_tr b]
          [("steps_per_epoch", v_steps_tr b);
           ("epochs", VInt epochs);
           ("validation_data", v_loader_va b);
           ("validation_steps", v_steps_va b);
           ("callbacks", VList [v_stopper b])])
       (v_history b) ].

Definition evaluate_trace : list Event :=
  [ ev (OCall (Global "print") [VStr "Testing model"] []) (v_printed_1 b);
    ev (OCall (Global "Evaluator") [] [("name", VStr dataset_name)])
       (v_evaluator b);
    ev (OCall (Global "BatchLoader") [v_dataset_te b]
          [("batch_size", VInt batch_size); ("epochs", VInt 1)])
       (v_loader_te b);
    ev (OCall (Method (v_model b) "predict") [v_loader_te b]
          [("batch_size", VInt batch_size)])
       (v_y_pred b);
    ev (OIter (v_dataset_te b)) (VList (v_graphs_te b)) ]
  ++ attr_events "y" (v_graphs_te b) (v_ys b)
  ++ [ ev (OCall (Global "np.vstack") [VList (v_ys b)] []) (v_y_true b);
       ev (OCall (Method (v_evaluator b) "eval")
             [VDict [("y_true", v_y_true b); ("y_pred", v_y_pred b)]] [])
          (v_ogb_score b);
       ev (OGetItem (v_ogb_score b) (VStr "rmse")) (v_rmse b);
       ev (OCall (Method (VStr "Done. RMSE: {:.4f}") "format") [v_rmse b] [])
          (v_text b);
       ev (OCall (Global "print") [v_text b] []) (v_printed_2 b) ].

Definition script_trace : list Event :=
  load_trace ++ split_trace ++ build_trace ++ fit_trace ++ evaluate_trace.

(** What a completed run guarantees about the bound values. *)
Definition well_bound : Prop :=
  length (v_nodes b) = length (v_graphs b) /\
  max_of (v_nodes b) = Some (v_N b) /\
  length (v_ys b) = length (v_graphs_te b).
End Trace.

(** ** Monitors over traces *)

Section Monitor.
Variable St : Type.
Variable delta : St -> Event -> option St.
Variable Q : St -> PyVal -> Prop.

(** A monitor reads a trace event by event; [None] is a violation. *)
Fixpoint scan (s : St) (tr : list Event) : option St :=
  match tr with
  | [] => Some s
  | e :: tr' =>
      match delta s e with
      | Some s' => scan s' tr'
      | None => None
      end
  end.

(** Started in monitor state [s], every run of [m] is accepted; a run that
    returns leaves the monitor in [s'], and a run that ends with an
    exception ends with one that [Q] allows in the state reached. *)
Definition Monitored {L A} (m : M L A) (s s' : St) : Prop :=
  forall p w,
    exists sf,
      scan s (trace (m p w)) = Some sf /\
      match outcome (m p w) with
      | Done _ => sf = s'
      | Uncaught e => Q sf e
      end.
End Monitor.

Definition any_exception {St : Type} (s : St) (e : PyVal) : Prop := True.

Section Words.
Variable X : Type.
Variable eqb : X -> X -> bool.
Variable f : Op -> option X.


End Words.

(** ** The skeleton of the script *)









(** ** Scoring waits for training *)

Definition is_returned (e : Event) : bool :=
  match snd e with
  | Returned _ => true
  | Raised _ => false
  end.

(** The monitor remembers whether a call of [fit] has returned, and
    rejects an operation of the scoring step issued before that. *)
Definition fit_guard (trained : bool) (e : Event) : option bool :=
  if in_phase Scoring e
  then (if trained then Some true else None)
  else Some (trained || (method_named "fit" e && is_returned e)).

(** ** Unpacking the output of the pooling layer *)

(** [Applied]: the last operation was a layer application that returned.
    [Dead]: the iteration that followed it yielded other than two values;
    nothing may follow. *)
Inductive Unpacking : Type :=
| Idle | Applied | Dead.

Definition unpack_step (s : Unpacking) (e : Event) : option Unpacking :=
  match s with
  | Dead => None
  | Applied =>
      match e with
      | (OIter _, Returned (VList xs)) =>
          if (length xs =? 2)%nat then Some Idle else Some Dead
      | (OCall (Object _) _ _, Returned _) => Some Applied
      | _ => Some Idle
      end
  | Idle =>
      match e with
      | (OCall (Object _) _ _, Returned _) => Some Applied
      | _ => Some Idle
      end
  end.

Definition unpack_error (s : Unpacking) (e : PyVal) : Prop :=
  match s with
  | Dead => e = VExn "ValueError"
  | _ => True
  end.

(** The small library with a pooling layer whose output unpacks into one
    value only. *)
Definition toy_one_output : Library :=
  {| World := unit;
     handle := fun op w =>
       match op with
       | OIter (VList [a; _]) => (Returned (VList [a]), w)
       | _ => handle toy op w
       end |}.

(** The small library with a dataset of no graph. *)
Definition toy_empty : Library := Toy.library [] "".

(** ** Stepping through a run *)

(** [e] put in front of the trace of [r]. *)
Definition after {L A} (e : Event) (r : Run L A) : Run L A :=
  mkRun (outcome r) (e :: trace r) (final r).

(** ** Where exceptions come from *)



(** ** The number of edge features *)

Definition is_edge_read (op : Op) : bool :=
  match op with
  | OGetAttr _ name => String.eqb name "n_edge_features"
  | _ => false
  end.

(** [L], except that a read of [n_edge_features] that returns, returns
    [v]. *)
Definition with_edge_features (L : Library) (v : PyVal) : Library :=
  {| World := World L;
     handle := fun op w =>
       if is_edge_read op
       then match handle L op w with
            | (Returned _, w') => (Returned v, w')
            | (Raised e, w') => (Raised e, w')
            end
       else handle L op w |}.

(** Two events agree except, possibly, on the answer to a read of
    [n_edge_features]. *)
Definition same_but_edges (e1 e2 : Event) : Prop :=
  fst e1 = fst e2 /\ (snd e1 = snd e2 \/ is_edge_read (fst e1) = true).

Definition same_outcome {A} (R : A -> A -> Prop) (o1 o2 : Outcome A) : Prop :=
  match o1, o2 with
  | Done a1, Done a2 => R a1 a2
  | Uncaught e1, Uncaught e2 => e1 = e2
  | _, _ => False
  end.

(** [m1] against [L] and [m2] against the modified library run alike. *)
Definition EdgeSim {L A} (v : PyVal) (R : A -> A -> Prop)
           (m1 : M L A) (m2 : M (with_edge_features L v) A) : Prop :=
  forall p (w : World L),
    Forall2 same_but_edges (trace (m1 p w)) (trace (m2 p w)) /\
    final (m1 p w) = final (m2 p w) /\
    same_outcome R (outcome (m1 p w)) (outcome (m2 p w)).
Arguments EdgeSim {L A} v R m1 m2.

(* ===================================================================== *)
(** * Part III: lemmas *)
(* ===================================================================== *)

(** ** Lists of events *)

Lemma ends_with_one e : ends_with [e] e.
Proof. exists []; reflexivity. Qed.

Lemma ends_with_cons x tr e : ends_with tr e -> ends_with (x :: tr) e.
Proof. intros [pre ->]; exists (x :: pre); reflexivity. Qed.

Lemma ends_with_app t1 t2 e : ends_with t2 e -> ends_with (t1 ++ t2) e.
Proof. intros [pre ->]; exists (t1 ++ pre); apply app_assoc. Qed.



Lemma filter_attr_events (f : Event -> bool) name os vs :
  (forall o v, f (OGetAttr o name, Returned v) = false) ->
  filter f (attr_events name os vs) = [].
Proof.
  intros Hf; unfold attr_events.
  induction (combine os vs) as [ | [o v] l IH ]; cbn; auto.
  rewrite Hf; exact IH.
Qed.



Lemma attr_events_Forall2 name os vs :
  length vs = length os ->
  Forall2 (fun o v => In (ev (OGetAttr o name) v) (attr_events name os vs)) os vs.
Proof.
  revert vs; induction os as [ | o os IH ]; intros [ | v vs ] Hlen;
    try discriminate; constructor.
  - left; reflexivity.
  - injection Hlen as Hlen.
    eapply Forall2_impl; [ | apply IH, Hlen ].
    intros a c Hin; right; exact Hin.
Qed.

Lemma attrs_in_trace name os vs (tr : list Event) :
  length vs = length os ->
  (forall e, In e (attr_events name os vs) -> In e tr) ->
  Forall2 (fun o v => returned tr (OGetAttr o name) v) os vs.
Proof.
  intros Hlen Hsub.
  eapply Forall2_impl; [ | apply attr_events_Forall2, Hlen ].
  intros o v Hin; apply Hsub, Hin.
Qed.

Lemma node_counts_in_trace name graphs nodes (tr : list Event) :
  length nodes = length graphs ->
  (forall e, In e (attr_events name graphs (map VInt nodes)) -> In e tr) ->
  Forall2 (fun g n => returned tr (OGetAttr g name) (VInt n)) graphs nodes.
Proof.
  revert nodes; induction graphs as [ | g graphs IH ];
    intros [ | n nodes ] Hlen Hsub; try discriminate; constructor.
  - apply Hsub; left; reflexivity.
  - apply IH; [ now injection Hlen | ].
    intros e He; apply Hsub; right; exact He.
Qed.

Lemma max_of_spec zs n :
  max_of zs = Some n -> In n zs /\ Forall (fun z => z <= n) zs.
Proof.
  destruct zs as [ | z zs ]; cbn; [ discriminate | ].
  intros H; injection H as <-.
  revert z; induction zs as [ | y zs IH ]; intros z; cbn.
  - split; [ auto | constructor; [ lia | constructor ] ].
  - destruct (IH (Z.max z y)) as [Hin Hall].
    inversion Hall as [ | ? ? Hle Hrest ]; subst.
    split.
    + destruct Hin as [Heq | Hin]; [ | auto ].
      destruct (Z.max_spec z y) as [[_ Hm] | [_ Hm]]; rewrite Hm in *; auto.
    + repeat constructor; try lia; exact Hrest.
Qed.

Lemma py_ints_Some vs zs : py_ints vs = Some zs -> vs = map VInt zs.
Proof.
  revert zs; induction vs as [ | v vs IH ]; cbn; intros zs H.
  - inversion H; reflexivity.
  - destruct v; try discriminate.
    destruct (py_ints vs) as [ zs' | ]; cbn in H; inversion H; subst.
    cbn; f_equal; auto.
Qed.

(** Membership in a trace written out as a list, and being its last
    event. *)
Ltac in_list :=
  lazymatch goal with
  | |- In _ (_ ++ _) => apply in_or_app; ((left; in_list) || (right; in_list))
  | |- In _ (_ :: _) => (left; reflexivity) || (right; in_list)
  end.

Ltac in_script_trace :=
  unfold returned, script_trace, load_trace, split_trace, build_trace,
    fit_trace, evaluate_trace;
  in_list.

Ltac at_the_end :=
  repeat first
    [ apply ends_with_one | apply ends_with_cons | apply ends_with_app ].

(** ** Inversion of completed runs *)

Section Completes.
Context {L : Library}.

Lemma completes_ret_inv {A} (x a : A) p (w : World L) tr w' :
  completes (ret x) p w a tr w' -> a = x /\ tr = [] /\ w' = w.
Proof. unfold completes; cbn; intros H; inversion H; auto. Qed.

Lemma completes_raise_inv {A} e p (w : World L) (a : A) tr w' :
  completes (raise e) p w a tr w' -> False.
Proof. unfold completes; cbn; discriminate. Qed.

Lemma completes_bind_inv {A B} (m : M L A) (k : A -> M L B) p w b tr w' :
  completes (bind m k) p w b tr w' ->
  exists a t1 w1 t2,
    completes m p w a t1 w1 /\ completes (k a) p w1 b t2 w' /\ tr = t1 ++ t2.
Proof.
  unfold completes; cbn; unfold m_bind.
  destruct (m p w) as [[a | e] t1 w1]; cbn; [ | discriminate ].
  destruct (k a p w1) as [o t2 w2] eqn:Ek; cbn.
  intros H; inversion H; subst.
  exists a, t1, w1, t2; auto.
Qed.

Lemma completes_call_inv op p w v tr w' :
  completes (call L op) p w v tr w' ->
  handle L op w = (Returned v, w') /\ tr = [(op, Returned v)].
Proof.
  unfold completes, call.
  destruct (handle L op w) as [[v0 | e] w0]; intros H; inversion H; auto.
Qed.

Lemma completes_iterate_inv o p (w : World L) xs tr w' :
  completes (iterate o) p w xs tr w' -> tr = [(OIter o, Returned (VList xs))].
Proof.
  unfold iterate; intros H.
  apply completes_bind_inv in H.
  destruct H as (v & t1 & w1 & t2 & Hc & Hk & ->).
  apply completes_call_inv in Hc; destruct Hc as [_ ->].
  destruct v; try (now apply completes_raise_inv in Hk).
  apply completes_ret_inv in Hk; destruct Hk as (-> & -> & _).
  reflexivity.
Qed.

Lemma completes_unpack2_inv v p (w : World L) ab tr w' :
  completes (unpack2 v) p w ab tr w' ->
  tr = [(OIter v, Returned (VList [fst ab; snd ab]))].
Proof.
  unfold unpack2; intros H.
  apply completes_bind_inv in H.
  destruct H as (xs & t1 & w1 & t2 & Hi & Hk & ->).
  apply completes_iterate_inv in Hi; subst t1.
  destruct xs as [ | x [ | y [ | z xs ] ] ];
    try (now apply completes_raise_inv in Hk).
  apply completes_ret_inv in Hk; destruct Hk as (-> & -> & _).
  reflexivity.
Qed.

Lemma completes_py_max_inv vs p (w : World L) n tr w' :
  completes (py_max vs) p w n tr w' ->
  tr = [] /\ w' = w /\
  exists zs, vs = map VInt zs /\ max_of zs = Some n.
Proof.
  unfold py_max; intros H.
  destruct (py_ints vs) as [ zs | ] eqn:E;
    [ | now apply completes_raise_inv in H ].
  destruct (max_of zs) as [ n' | ] eqn:Emax;
    [ | now apply completes_raise_inv in H ].
  apply completes_ret_inv in H; destruct H as (-> & -> & ->).
  apply py_ints_Some in E.
  split; [ reflexivity | split; [ reflexivity | ] ].
  exists zs; auto.
Qed.

Lemma completes_for_each_getattr_inv name os p (w : World L) vs tr w' :
  completes (for_each (fun o => getattr o name) os) p w vs tr w' ->
  tr = attr_events name os vs /\ length vs = length os.
Proof.
  revert w vs tr w'; induction os as [ | o os IH ]; cbn [for_each];
    intros w vs tr w' H.
  - apply completes_ret_inv in H; destruct H as (-> & -> & _); auto.
  - apply completes_bind_inv in H.
    destruct H as (v & t1 & w1 & t2 & Hc & Hk & ->).
    apply completes_call_inv in Hc; destruct Hc as [_ ->].
    apply completes_bind_inv in Hk.
    destruct Hk as (vs' & t3 & w3 & t4 & Hr & Hk & ->).
    apply IH in Hr; destruct Hr as [-> Hlen].
    apply completes_ret_inv in Hk; destruct Hk as (-> & -> & _).
    cbn; rewrite app_nil_r, Hlen; auto.
Qed.
End Completes.

(** One statement of a completed run: split the run at the first bind and
    read off the events of its head. *)
Ltac invert_step H :=
  let a := fresh "a" in
  let t1 := fresh "t" in
  let w1 := fresh "w" in
  let t2 := fresh "t" in
  let Hm := fresh "Hm" in
  let Ht := fresh "Ht" in
  apply completes_bind_inv in H;
  destruct H as (a & t1 & w1 & t2 & Hm & H & Ht);
  cbv beta in H;
  first
    [ apply completes_call_inv in Hm; destruct Hm as [_ Hm]
    | apply completes_iterate_inv in Hm
    | apply completes_for_each_getattr_inv in Hm
    | apply completes_py_max_inv in Hm
    | apply completes_unpack2_inv in Hm ].

Section Master.
Context {L : Library}.

(** A completed run of the script issues exactly the operations of
    [script_trace], for the values it bound. *)
Lemma script_completes_trace p (w : World L) tr w' :
  completes script p w tt tr w' ->
  exists b, tr = script_trace b /\ well_bound b.
Proof.
  unfold script, call_global, apply_layer, invoke, getattr, getitem, print.
  intros H.
  do 21 invert_step H.
  invert_step H.
  match type of H with
  | completes (let (_, _) := ?x in _) _ _ _ _ _ => destruct x as [X_1p A_1]
  end.
  do 27 invert_step H.
  apply completes_ret_inv in H; destruct H as (_ & -> & _).
  repeat match goal with
         | H : _ /\ _ |- _ => destruct H
         | H : exists _, _ |- _ => destruct H
         end.
  subst; cbn [fst snd] in *.
  eexists (Build_Bindings _ _ _ _ _ _ _ _ _ _ _ _ _ _ _ _ _ _ _ _ _ _ _ _ _
             _ _ _ _ _ _ _ _ _ _ _ _ _ _ _ _ _ _ _ _ _ _ _ _ _).
  split.
  - cbn -[attr_events]; rewrite <- !app_assoc; cbn -[attr_events]; reflexivity.
  - unfold well_bound; cbn [v_nodes v_graphs v_N v_ys v_graphs_te].
    rewrite length_map in *; auto.
Qed.
End Master.

Example toy_run_completes :
  completes (@script toy) Toy.process tt tt (trace toy_run) (final toy_run).
Proof. vm_compute; reflexivity. Qed.

Example toy_run_prints :
  map fst (filter (global_named "print") (trace toy_run)) =
    [ OCall (Global "print") [VStr "Testing model"] [];
      OCall (Global "print") [VStr "Done. RMSE: 0.5000"] [] ].
Proof. vm_compute; reflexivity. Qed.

Example toy_run_length : length (trace toy_run) = 51%nat.
Proof. vm_compute; reflexivity. Qed.

(** ** Exceptions propagate through sequencing *)

Section Propagation.
Context {L : Library}.








End Propagation.

Lemma fail_fast_failure {A} (o : Outcome A) tr op e :
  fail_fast o tr ->
  In (op, Raised e) tr ->
  o = Uncaught e /\ exists pre, tr = pre ++ [(op, Raised e)] /\ all_returned pre.
Proof.
  intros [Hall | (pre & op' & e' & -> & Hpre & ->)] Hin.
  - unfold all_returned in Hall; rewrite Forall_forall in Hall.
    destruct (Hall _ Hin) as [v Hv]; discriminate.
  - apply in_app_or in Hin; destruct Hin as [Hin | [Heq | []]].
    + unfold all_returned in Hpre; rewrite Forall_forall in Hpre.
      destruct (Hpre _ Hin) as [v Hv]; discriminate.
    + injection Heq as -> ->; eauto.
Qed.



(** A handler, by contrast, does not propagate: the property above is one
    of the script, not of the monad. *)
Remark catch_does_not_propagate :
  ~ Propagating (L := Toy.library [] "Input")
      (catch (call_global "Input" [] []) (fun _ => ret VNone)).
Proof.
  intros H.
  destruct (@fail_fast_failure _ _ _ (OCall (Global "Input") [] [])
              (VExn "ConnectionError") (H Toy.process tt)) as [Habs _].
  - left; reflexivity.
  - discriminate Habs.
Qed.

(** ** Properties of every operation of every run *)

Section Emission.
Context {L : Library}.
Variable P : Event -> bool.

Lemma emits_ret {A} (a : A) : Emits P (ret a : M L A).
Proof. intros p w; reflexivity. Qed.

Lemma emits_raise {A} e : Emits P (raise e : M L A).
Proof. intros p w; reflexivity. Qed.

Lemma emits_call op : (forall r, P (op, r) = true) -> Emits P (call L op).
Proof.
  intros HP p w; unfold call.
  destruct (handle L op w) as [r w1]; cbn.
  rewrite HP; reflexivity.
Qed.

Lemma emits_bind {A B} (m : M L A) (k : A -> M L B) :
  Emits P m -> (forall a, Emits P (k a)) -> Emits P (bind m k).
Proof.
  intros Hm Hk p w; cbn; unfold m_bind.
  specialize (Hm p w).
  destruct (m p w) as [[a | e] t1 w1]; cbn in *; [ | exact Hm ].
  rewrite forallb_app, Hm; apply Hk.
Qed.

Lemma emits_iterate o :
  (forall r, P (OIter o, r) = true) -> Emits P (iterate o : M L _).
Proof.
  intros HP; apply emits_bind; [ apply emits_call, HP | ].
  intros []; first [ apply emits_ret | apply emits_raise ].
Qed.

Lemma emits_py_max vs : Emits P (py_max vs : M L _).
Proof.
  unfold py_max.
  destruct (py_ints vs) as [ zs | ]; [ | apply emits_raise ].
  destruct (max_of zs); [ apply emits_ret | apply emits_raise ].
Qed.

Lemma emits_unpack2 v :
  (forall r, P (OIter v, r) = true) -> Emits P (unpack2 v : M L _).
Proof.
  intros HP; apply emits_bind; [ apply emits_iterate, HP | ].
  intros [ | x [ | y [ | z xs ] ] ];
    first [ apply emits_ret | apply emits_raise ].
Qed.

Lemma emits_for_each (f : PyVal -> M L PyVal) xs :
  (forall x, Emits P (f x)) -> Emits P (for_each f xs).
Proof.
  intros Hf; induction xs as [ | x xs IH ]; cbn [for_each].
  - apply emits_ret.
  - apply emits_bind; [ apply Hf | intros v ].
    apply emits_bind; [ exact IH | intros vs ].
    apply emits_ret.
Qed.
End Emission.

Ltac emit :=
  repeat first
    [ apply emits_ret
    | apply emits_call; intros ?; reflexivity
    | apply emits_iterate; intros ?; reflexivity
    | apply emits_py_max
    | apply emits_unpack2; intros ?; reflexivity
    | apply emits_for_each; intros ?
    | apply emits_bind; [ | intros ? ]
    | match goal with
      | |- Emits _ (let (_, _) := ?x in _) => destruct x
      end ].

(** ** Independence of the process context *)

Section Blindness.
Context {L : Library}.

Lemma blind_ret {A} (a : A) : ArgvBlind (ret a : M L A).
Proof. intros p1 p2 w; reflexivity. Qed.

Lemma blind_raise {A} e : ArgvBlind (raise e : M L A).
Proof. intros p1 p2 w; reflexivity. Qed.

Lemma blind_call op : ArgvBlind (call L op).
Proof. intros p1 p2 w; reflexivity. Qed.

Lemma blind_bind {A B} (m : M L A) (k : A -> M L B) :
  ArgvBlind m -> (forall a, ArgvBlind (k a)) -> ArgvBlind (bind m k).
Proof.
  intros Hm Hk p1 p2 w; cbn; unfold m_bind.
  rewrite (Hm p1 p2 w).
  destruct (outcome (m p2 w)) as [a | e]; [ | reflexivity ].
  rewrite (Hk a p1 p2); reflexivity.
Qed.

Lemma blind_iterate o : ArgvBlind (iterate o : M L _).
Proof.
  apply blind_bind; [ apply blind_call | ].
  intros []; first [ apply blind_ret | apply blind_raise ].
Qed.

Lemma blind_py_max vs : ArgvBlind (py_max vs : M L _).
Proof.
  unfold py_max.
  destruct (py_ints vs) as [ zs | ]; [ | apply blind_raise ].
  destruct (max_of zs); [ apply blind_ret | apply blind_raise ].
Qed.

Lemma blind_unpack2 v : ArgvBlind (unpack2 v : M L _).
Proof.
  apply blind_bind; [ apply blind_iterate | ].
  intros [ | x [ | y [ | z xs ] ] ];
    first [ apply blind_ret | apply blind_raise ].
Qed.

Lemma blind_for_each (f : PyVal -> M L PyVal) xs :
  (forall x, ArgvBlind (f x)) -> ArgvBlind (for_each f xs).
Proof.
  intros Hf; induction xs as [ | x xs IH ]; cbn [for_each].
  - apply blind_ret.
  - apply blind_bind; [ apply Hf | intros v ].
    apply blind_bind; [ exact IH | intros vs ].
    apply blind_ret.
Qed.
End Blindness.

Ltac blind :=
  repeat first
    [ apply blind_ret
    | apply blind_call
    | apply blind_iterate
    | apply blind_py_max
    | apply blind_unpack2
    | apply blind_for_each; intros ?
    | apply blind_bind; [ | intros ? ]
    | match goal with
      | |- ArgvBlind (let (_, _) := ?x in _) => destruct x
      end ].

(** Reading the command line or an environment variable is not blind: the
    property is one of the script, not of the monad. *)
Remark sys_argv_is_not_blind : ~ ArgvBlind (sys_argv toy).
Proof.
  intros H.
  specialize (H {| argv := ["a"]; environ := [] |}
                {| argv := ["b"]; environ := [] |} tt).
  discriminate H.
Qed.

Remark getenv_is_not_blind : ~ ArgvBlind (getenv toy "EPOCHS").
Proof.
  intros H.
  specialize (H {| argv := []; environ := [("EPOCHS", "20")] |}
                {| argv := []; environ := [] |} tt).
  discriminate H.
Qed.

(** ** The training loop *)

Section TrainingLoop.
Local Open Scope nat_scope.
Variable verdict : nat -> Verdict.

(** The counter never exceeds the number of epochs already trained, so a
    patience that covers the remaining epochs lets them all run. *)
Lemma fit_loop_full patience todo epoch wait :
  wait <= epoch ->
  epoch + todo <= patience ->
  fit_loop verdict patience todo epoch wait = epoch + todo.
Proof.
  revert epoch wait; induction todo as [ | todo IH ]; intros epoch wait Hw Hp;
    cbn [fit_loop].
  - lia.
  - destruct (verdict epoch).
    + rewrite IH; lia.
    + destruct (Nat.leb_spec patience (S wait)).
      * lia.
      * rewrite IH; lia.
    + rewrite IH; lia.
Qed.

Lemma patience_covers_epochs patience total :
  total <= patience -> epochs_trained verdict patience total = total.
Proof.
  intros H; unfold epochs_trained.
  rewrite fit_loop_full; lia.
Qed.
End TrainingLoop.

(** A shorter patience does cut training short. *)
Example short_patience_stops :
  epochs_trained (fun _ => Stalled) 3 10 = 3%nat.
Proof. reflexivity. Qed.

(** ** Monitored computations *)

Section MonitorFacts.
Variable St : Type.
Variable delta : St -> Event -> option St.
Variable Q : St -> PyVal -> Prop.
Context {L : Library}.

Lemma scan_app s t1 t2 :
  scan delta s (t1 ++ t2) =
  match scan delta s t1 with
  | Some s1 => scan delta s1 t2
  | None => None
  end.
Proof.
  revert s; induction t1 as [ | e t1 IH ]; intros s; cbn; [ reflexivity | ].
  destruct (delta s e); [ apply IH | reflexivity ].
Qed.

Lemma monitored_ret {A} (a : A) s : Monitored delta Q (ret a : M L A) s s.
Proof. intros p w; exists s; split; reflexivity. Qed.

Lemma monitored_raise {A} e s s' :
  Q s e -> Monitored delta Q (raise e : M L A) s s'.
Proof. intros HQ p w; exists s; split; [ reflexivity | exact HQ ]. Qed.

Lemma monitored_call op s s' :
  (forall v, delta s (op, Returned v) = Some s') ->
  (forall e, exists sf, delta s (op, Raised e) = Some sf /\ Q sf e) ->
  Monitored delta Q (call L op) s s'.
Proof.
  intros Hret Hexn p w; unfold call.
  destruct (handle L op w) as [[v | e] w1]; cbn.
  - exists s'; rewrite Hret; auto.
  - destruct (Hexn e) as (sf & -> & HQ); exists sf; auto.
Qed.

Lemma monitored_bind {A B} (m : M L A) (k : A -> M L B) s s1 s2 :
  Monitored delta Q m s s1 ->
  (forall a, Monitored delta Q (k a) s1 s2) ->
  Monitored delta Q (bind m k) s s2.
Proof.
  intros Hm Hk p w; cbn; unfold m_bind.
  destruct (Hm p w) as (sf & Hscan & Hout).
  destruct (m p w) as [[a | e] t1 w1]; cbn in *.
  - subst sf.
    destruct (Hk a p w1) as (sf & Hscan' & Hout').
    exists sf; rewrite scan_app, Hscan; auto.
  - exists sf; auto.
Qed.

Lemma monitored_iterate o s s' :
  (forall v, delta s (OIter o, Returned v) = Some s') ->
  (forall e, exists sf, delta s (OIter o, Raised e) = Some sf /\ Q sf e) ->
  Q s' (VExn "TypeError") ->
  Monitored delta Q (iterate o : M L _) s s'.
Proof.
  intros Hret Hexn HQ.
  eapply monitored_bind; [ apply monitored_call; eassumption | ].
  intros []; first [ apply monitored_ret | apply monitored_raise, HQ ].
Qed.

Lemma monitored_py_max vs s :
  Q s (VExn "ValueError") -> Q s (VExn "TypeError") ->
  Monitored delta Q (py_max vs : M L _) s s.
Proof.
  intros Hv Ht; unfold py_max.
  destruct (py_ints vs) as [ zs | ]; [ | apply monitored_raise, Ht ].
  destruct (max_of zs); [ apply monitored_ret | apply monitored_raise, Hv ].
Qed.

Lemma monitored_unpack2 v s s' :
  (forall r, delta s (OIter v, Returned r) = Some s') ->
  (forall e, exists sf, delta s (OIter v, Raised e) = Some sf /\ Q sf e) ->
  Q s' (VExn "TypeError") -> Q s' (VExn "ValueError") ->
  Monitored delta Q (unpack2 v : M L _) s s'.
Proof.
  intros Hret Hexn Ht Hv.
  eapply monitored_bind; [ apply monitored_iterate; eassumption | ].
  intros [ | x [ | y [ | z xs ] ] ];
    first [ apply monitored_ret | apply monitored_raise, Hv ].
Qed.

Lemma monitored_for_each (f : PyVal -> M L PyVal) xs s :
  (forall x, Monitored delta Q (f x) s s) ->
  Monitored delta Q (for_each f xs) s s.
Proof.
  intros Hf; induction xs as [ | x xs IH ]; cbn [for_each].
  - apply monitored_ret.
  - eapply monitored_bind; [ apply Hf | intros v ].
    eapply monitored_bind; [ exact IH | intros vs ].
    apply monitored_ret.
Qed.
End MonitorFacts.

Section WordFacts.
Variable X : Type.
Variable eqb : X -> X -> bool.
Variable f : Op -> option X.
Hypothesis eqb_eq : forall x y, eqb x y = true -> x = y.

End WordFacts.




(** One statement of the script under a word monitor. *)
Ltac monitor_call :=
  first
    [ apply monitored_call
    | apply monitored_iterate
    | apply monitored_unpack2 ];
  try (intros ?; cbn; reflexivity);
  try (intros ?; eexists; split; [ cbn; reflexivity | exact I ]);
  try exact I.

Ltac monitor :=
  repeat first
    [ apply monitored_ret
    | apply monitored_py_max; exact I
    | apply monitored_for_each; intros ?
    | monitor_call
    | eapply monitored_bind; [ | intros ? ]
    | match goal with
      | |- Monitored _ _ (let (_, _) := ?x in _) _ _ => destruct x
      end ].

Ltac unfold_script :=
  unfold script, call_global, apply_layer, invoke, getattr, getitem, print.




(** ** Scoring waits for training *)

Lemma script_guarded (L : Library) :
  Monitored fit_guard any_exception (@script L) false true.
Proof. unfold_script. monitor. Qed.

Lemma fit_guard_sound tr trained sf :
  scan fit_guard trained tr = Some sf ->
  forall pre e post,
    tr = pre ++ e :: post ->
    in_phase Scoring e = true ->
    trained = true \/
    exists f, In f pre /\ method_named "fit" f = true /\ is_returned f = true.
Proof.
  revert trained; induction tr as [ | x tr IH ]; intros trained Hscan pre e post Heq He.
  - destruct pre; discriminate.
  - cbn in Hscan.
    destruct pre as [ | y pre ]; cbn in Heq; injection Heq as -> ->.
    + unfold fit_guard in Hscan; rewrite He in Hscan.
      destruct trained; [ auto | discriminate ].
    + destruct (fit_guard trained y) as [ t1 | ] eqn:Ey; [ | discriminate ].
      destruct (IH _ Hscan pre e post eq_refl He) as [-> | (f & Hin & Hf & Hr)].
      * unfold fit_guard in Ey.
        destruct (in_phase Scoring y).
        -- destruct trained; [ auto | discriminate ].
        -- injection Ey as Ey.
           apply orb_true_iff in Ey; destruct Ey as [-> | Ey]; [ auto | ].
           apply andb_true_iff in Ey; destruct Ey as [Hf Hr].
           right; exists y; repeat split; auto; left; reflexivity.
      * right; exists f; repeat split; auto; right; exact Hin.
Qed.

(** ** Unpacking the output of the pooling layer *)

Section UnpackFacts.
Context {L : Library}.

Lemma unpack2_checked v :
  Monitored unpack_step unpack_error (unpack2 v : M L _) Applied Idle.
Proof.
  intros p w; unfold unpack2, iterate; cbn; unfold m_bind, call; cbn.
  destruct (handle L (OIter v) w) as [[r | e] w1]; cbn.
  - destruct r as [ | | | | | xs | | | | ]; cbn;
      try (exists Idle; split; [ reflexivity | exact I ]).
    destruct xs as [ | x [ | y [ | z xs ] ] ]; cbn;
      first [ exists Idle; split; reflexivity
            | exists Dead; split; reflexivity ].
  - exists Idle; split; [ reflexivity | exact I ].
Qed.

Lemma unpack_step_dead tr sf : scan unpack_step Dead tr = Some sf -> tr = [] /\ sf = Dead.
Proof. destruct tr; cbn; [ intros H; injection H as <-; auto | discriminate ]. Qed.

Lemma unpack_step_sound pre layer args kwargs pooled o xs post s sf :
  scan unpack_step s
       (pre ++ (OCall (Object layer) args kwargs, Returned pooled)
            :: (OIter o, Returned (VList xs)) :: post) = Some sf ->
  length xs <> 2%nat ->
  post = [] /\ sf = Dead.
Proof.
  intros Hscan Hlen.
  rewrite scan_app in Hscan.
  destruct (scan unpack_step s pre) as [ s1 | ]; [ | discriminate ].
  cbn [scan] in Hscan.
  assert (Hstep : unpack_step s1 (OCall (Object layer) args kwargs, Returned pooled)
                  = Some Applied \/ s1 = Dead)
    by (destruct s1; auto).
  destruct Hstep as [Hstep | ->]; [ rewrite Hstep in Hscan | discriminate ].
  cbn [unpack_step] in Hscan.
  destruct (Nat.eqb_spec (length xs) 2) as [ Habs | _ ]; [ contradiction | ].
  apply unpack_step_dead in Hscan; exact Hscan.
Qed.
End UnpackFacts.

Ltac monitor_unpack :=
  repeat first
    [ apply monitored_ret
    | apply monitored_py_max; exact I
    | apply monitored_for_each; intros ?
    | apply unpack2_checked
    | monitor_call
    | eapply monitored_bind; [ | intros ? ]
    | match goal with
      | |- Monitored _ _ (let (_, _) := ?x in _) _ _ => destruct x
      end ].

Lemma script_unpack_checked (L : Library) :
  Monitored unpack_step unpack_error (@script L) Idle Idle.
Proof. unfold_script. monitor_unpack. Qed.

(** ** The number of edge features is not used *)

Section EdgeFacts.
Context {L : Library}.
Variable v : PyVal.

Lemma edgesim_ret {A} (R : A -> A -> Prop) a1 a2 :
  R a1 a2 -> EdgeSim v R (ret a1 : M L A) (ret a2).
Proof. intros HR p w; repeat split; [ constructor | exact HR ]. Qed.

Lemma edgesim_raise {A} (R : A -> A -> Prop) e :
  EdgeSim v R (raise e : M L A) (raise e).
Proof. intros p w; repeat split; constructor. Qed.

Lemma edgesim_call op :
  is_edge_read op = false ->
  EdgeSim v eq (call L op) (call (with_edge_features L v) op).
Proof.
  intros Hop p w; unfold call; cbn; rewrite Hop.
  destruct (handle L op w) as [[r | e] w1]; cbn;
    (split; [ repeat constructor; auto | split; reflexivity ]).
Qed.

Lemma edgesim_edge_read o :
  EdgeSim v (fun _ _ => True)
    (call L (OGetAttr o "n_edge_features"))
    (call (with_edge_features L v) (OGetAttr o "n_edge_features")).
Proof.
  intros p w; unfold call; cbn.
  destruct (handle L (OGetAttr o "n_edge_features") w) as [[r | e] w1]; cbn;
    (split;
     [ constructor; [ split; [ reflexivity | right; reflexivity ] | constructor ]
     | split; [ reflexivity | ] ]);
    cbn; auto.
Qed.

Lemma edgesim_bind {A B} (R : A -> A -> Prop) (R' : B -> B -> Prop)
      (m1 : M L A) (m2 : M (with_edge_features L v) A)
      (k1 : A -> M L B) (k2 : A -> M (with_edge_features L v) B) :
  EdgeSim v R m1 m2 ->
  (forall a1 a2, R a1 a2 -> EdgeSim v R' (k1 a1) (k2 a2)) ->
  EdgeSim v R' (bind m1 k1) (bind m2 k2).
Proof.
  intros Hm Hk p w; cbn; unfold m_bind.
  destruct (Hm p w) as (Htr & Hfin & Hout).
  destruct (m1 p w) as [[a1 | e1] t1 w1], (m2 p w) as [[a2 | e2] t2 w2];
    cbn in *; try contradiction; subst.
  - destruct (Hk a1 a2 Hout p w2) as (Htr' & Hfin' & Hout').
    repeat split; auto.
    apply Forall2_app; assumption.
  - repeat split; auto.
Qed.

Lemma edgesim_iterate o :
  EdgeSim v eq (iterate o : M L _) (iterate o).
Proof.
  eapply edgesim_bind; [ apply edgesim_call; reflexivity | ].
  intros a1 a2 <-.
  destruct a1; first [ apply edgesim_ret; reflexivity | apply edgesim_raise ].
Qed.

Lemma edgesim_py_max vs :
  EdgeSim v eq (py_max vs : M L _) (py_max vs).
Proof.
  unfold py_max.
  destruct (py_ints vs) as [ zs | ]; [ | apply edgesim_raise ].
  destruct (max_of zs); [ apply edgesim_ret; reflexivity | apply edgesim_raise ].
Qed.

Lemma edgesim_unpack2 x :
  EdgeSim v eq (unpack2 x : M L _) (unpack2 x).
Proof.
  eapply edgesim_bind; [ apply edgesim_iterate | ].
  intros a1 a2 <-.
  destruct a1 as [ | y [ | z [ | u xs ] ] ];
    first [ apply edgesim_ret; reflexivity | apply edgesim_raise ].
Qed.

Lemma edgesim_for_each (f1 : PyVal -> M L PyVal)
      (f2 : PyVal -> M (with_edge_features L v) PyVal) xs :
  (forall x, EdgeSim v eq (f1 x) (f2 x)) ->
  EdgeSim v eq (for_each f1 xs) (for_each f2 xs).
Proof.
  intros Hf; induction xs as [ | x xs IH ]; cbn [for_each].
  - apply edgesim_ret; reflexivity.
  - eapply edgesim_bind; [ apply Hf | intros a1 a2 <- ].
    eapply edgesim_bind; [ exact IH | intros b1 b2 <- ].
    apply edgesim_ret; reflexivity.
Qed.
End EdgeFacts.

Ltac edgesim :=
  repeat first
    [ apply edgesim_ret; reflexivity
    | apply edgesim_iterate
    | apply edgesim_py_max
    | apply edgesim_unpack2
    | apply edgesim_for_each; intros ?
    | eapply edgesim_bind;
      [ first [ apply edgesim_call; reflexivity
              | apply edgesim_iterate
              | apply edgesim_py_max
              | apply edgesim_unpack2
              | apply edgesim_for_each; intros ?; apply edgesim_call; reflexivity ]
      | intros ? ? <- ]
    | apply edgesim_call; reflexivity
    | match goal with
      | |- EdgeSim _ _ (let (_, _) := ?x in _) _ => destruct x
      end ].

Lemma script_ignores_edge_features (L : Library) v :
  EdgeSim v eq (@script L) (@script (with_edge_features L v)).
Proof.
  unfold_script.
  do 5 (eapply edgesim_bind;
        [ first [ apply edgesim_call; reflexivity
                | apply edgesim_iterate
                | apply edgesim_py_max
                | apply edgesim_for_each; intros ?; apply edgesim_call; reflexivity ]
        | intros ? ? <- ]).
  eapply edgesim_bind; [ apply edgesim_call; reflexivity | intros ? ? <- ].
  eapply edgesim_bind; [ apply edgesim_edge_read | intros ? ? _ ].
  edgesim.
Qed.

(** ** The maximum of the node counts *)

Lemma fold_max_init zs a y :
  fold_left Z.max zs (Z.max a y) = Z.max a (fold_left Z.max zs y).
Proof.
  revert y; induction zs as [ | z zs IH ]; intros y; cbn; [ reflexivity | ].
  rewrite <- Z.max_assoc; apply IH.
Qed.

Lemma max_of_app xs ys a b :
  max_of xs = Some a -> max_of ys = Some b ->
  max_of (xs ++ ys) = Some (Z.max a b).
Proof.
  destruct xs as [ | x xs ]; cbn; [ discriminate | ].
  destruct ys as [ | y ys ]; cbn; [ discriminate | ].
  intros Ha Hb; injection Ha as <-; injection Hb as <-.
  rewrite fold_left_app; cbn.
  rewrite fold_max_init; reflexivity.
Qed.

Lemma max_of_none zs : max_of zs = None -> zs = [].
Proof. destruct zs; [ reflexivity | discriminate ]. Qed.

(** ** Stepping through a run *)

Section Stepping.
Context {L : Library}.

Lemma bind_call_returned {A} op (k : PyVal -> M L A) p w v w' :
  handle L op w = (Returned v, w') ->
  bind (call L op) k p w = after (op, Returned v) (k v p w').
Proof. intros H; cbn; unfold m_bind, call; rewrite H; reflexivity. Qed.

Lemma bind_iterate_returned {A} o (k : list PyVal -> M L A) p w xs w' :
  handle L (OIter o) w = (Returned (VList xs), w') ->
  bind (iterate o) k p w = after (OIter o, Returned (VList xs)) (k xs p w').
Proof.
  intros H; unfold iterate; cbn; unfold m_bind, call; rewrite H; reflexivity.
Qed.
End Stepping.


(** ** Where exceptions come from *)





(* ===================================================================== *)
(** * Part IV: properties of the script *)
(* ===================================================================== *)

(** ** The workflow runs its five steps once each, in order *)



(** ** What is scored and what is printed *)

(** C2.  In every completed run the last thing the script does is print
    the score line, and the number formatted into that line (to four
    decimals, by the format string) is the ['rmse'] entry the benchmark
    evaluator returned for exactly two arrays: the predictions of the
    fitted model over the test split, and the stacked targets of the graphs
    of the same test split. *)
Theorem printed_score_is_test_rmse (L : Library) p (w : World L) tr w' :
  completes script p w tt tr w' ->
  exists dataset dataset_te model y_pred y_true rmse text printed,
    split_part tr "test" dataset dataset_te /\
    fitted tr model /\
    predictions tr model dataset_te y_pred /\
    targets tr dataset_te y_true /\
    evaluator_rmse tr y_true y_pred rmse /\
    score_line tr rmse text /\
    ends_with tr (ev (OCall (Global "print") [text] []) printed).
Proof.
  intros H.
  destruct (script_completes_trace H) as (b & -> & _ & _ & Hys).
  exists (v_dataset b), (v_dataset_te b), (v_model b), (v_y_pred b),
    (v_y_true b), (v_rmse b), (v_text b), (v_printed_2 b).
  repeat split.
  - exists (v_ogb_dataset b), (v_idx b), (v_idx_te b).
    repeat split; in_script_trace.
  - do 3 eexists; in_script_trace.
  - exists (v_loader_te b); split; in_script_trace.
  - exists (v_graphs_te b), (v_ys b); repeat split; try in_script_trace.
    apply attrs_in_trace; [ exact Hys | ].
    intros e He.
    unfold script_trace, evaluate_trace.
    do 5 (apply in_or_app; right).
    apply in_or_app; left; exact He.
  - exists (v_evaluator b), (v_ogb_score b); repeat split; in_script_trace.
  - unfold score_line; in_script_trace.
  - unfold script_trace, evaluate_trace; at_the_end.
Qed.

Lemma printed_score_is_test_rmse_witness :
  exists dataset dataset_te model y_pred y_true rmse text printed,
    split_part (trace toy_run) "test" dataset dataset_te /\
    fitted (trace toy_run) model /\
    predictions (trace toy_run) model dataset_te y_pred /\
    targets (trace toy_run) dataset_te y_true /\
    evaluator_rmse (trace toy_run) y_true y_pred rmse /\
    score_line (trace toy_run) rmse text /\
    ends_with (trace toy_run) (ev (OCall (Global "print") [text] []) printed).
Proof.
  apply (@printed_score_is_test_rmse toy Toy.process tt
           (trace toy_run) (final toy_run)).
  vm_compute; reflexivity.
Defined.

(** ** The script's own output *)




(** ** Configuration *)

(** C4.  The three parameters are the constants written in the file; the
    run of the script is the same whatever command line and environment
    variables the process was started with, as long as the libraries are in
    the same state; and in every run each of the three parameters reaches
    the libraries with its in-file value. *)
Theorem configuration_is_fixed :
  (learning_rate = (1 # 1000)%Q /\ epochs = 10 /\ batch_size = 32) /\
  (forall (L : Library) (p1 p2 : Process) (w : World L),
      @script L p1 w = @script L p2 w) /\
  (forall (L : Library) (p : Process) (w : World L),
      forallb config_fixed (trace (@script L p w)) = true).
Proof.
  split; [ repeat split | split ].
  - intros L.
    change (ArgvBlind (@script L)).
    unfold script, call_global, apply_layer, invoke, getattr, getitem, print.
    blind.
  - intros L.
    change (Emits config_fixed (@script L)).
    unfold script, call_global, apply_layer, invoke, getattr, getitem, print.
    emit.
Qed.

(** ** How training is invoked *)

(** C5.  In every run, a call of [fit] has one positional argument and
    exactly the five keywords [steps_per_epoch], [epochs],
    [validation_data], [validation_steps] and [callbacks].  In every
    completed run [fit] is called exactly once, on the assembled model: the
    positional argument is the batching loader of the training split, and the
    keywords are that loader's steps per epoch, the configured number of
    epochs, the batching loader of the validation split, its steps per
    epoch, and a list holding one early-stopping callback.  Both loaders
    use the configured batch size. *)
Theorem fit_arguments (L : Library) p (w : World L) :
  forallb fit_shape (trace (@script L p w)) = true /\
  forall tr w',
    completes script p w tt tr w' ->
    exists dataset dataset_tr dataset_va loader_tr loader_va steps_tr steps_va
           stopper patience model history,
      split_part tr "train" dataset dataset_tr /\
      split_part tr "valid" dataset dataset_va /\
      batch_loader tr dataset_tr loader_tr steps_tr /\
      batch_loader tr dataset_va loader_va steps_va /\
      early_stopping tr patience stopper /\
      filter (method_named "fit") tr =
        [ ev (OCall (Method model "fit") [loader_tr]
                [("steps_per_epoch", steps_tr);
                 ("epochs", VInt epochs);
                 ("validation_data", loader_va);
                 ("validation_steps", steps_va);
                 ("callbacks", VList [stopper])])
             history ].
Proof.
  split.
  { revert p w.
    change (Emits fit_shape (@script L)).
    unfold script, call_global, apply_layer, invoke, getattr, getitem, print.
    emit. }
  intros tr w' H.
  destruct (script_completes_trace H) as (b & -> & _).
  exists (v_dataset b), (v_dataset_tr b), (v_dataset_va b), (v_loader_tr b),
    (v_loader_va b), (v_steps_tr b), (v_steps_va b), (v_stopper b), 10,
    (v_model b), (v_history b).
  repeat split; try in_script_trace.
  - exists (v_ogb_dataset b), (v_idx b), (v_idx_tr b).
    repeat split; in_script_trace.
  - exists (v_ogb_dataset b), (v_idx b), (v_idx_va b).
    repeat split; in_script_trace.
  - unfold early_stopping; in_script_trace.
  - unfold script_trace, load_trace, split_trace, build_trace, fit_trace,
      evaluate_trace.
    rewrite !filter_app, !filter_attr_events by reflexivity.
    reflexivity.
Qed.

Lemma fit_arguments_witness :
  forallb fit_shape (trace toy_run) = true /\
  exists dataset dataset_tr dataset_va loader_tr loader_va steps_tr steps_va
         stopper patience model history,
    split_part (trace toy_run) "train" dataset dataset_tr /\
    split_part (trace toy_run) "valid" dataset dataset_va /\
    batch_loader (trace toy_run) dataset_tr loader_tr steps_tr /\
    batch_loader (trace toy_run) dataset_va loader_va steps_va /\
    early_stopping (trace toy_run) patience stopper /\
    filter (method_named "fit") (trace toy_run) =
      [ ev (OCall (Method model "fit") [loader_tr]
              [("steps_per_epoch", steps_tr);
               ("epochs", VInt epochs);
               ("validation_data", loader_va);
               ("validation_steps", steps_va);
               ("callbacks", VList [stopper])])
           history ].
Proof.
  destruct (@fit_arguments toy Toy.process tt) as [Hshape Hdone].
  split; [ exact Hshape | ].
  apply (Hdone (trace toy_run) (final toy_run)).
  vm_compute; reflexivity.
Defined.

(** ** The assembled model *)

(** C6.  In every run, each layer and the optimizer are built with the
    arguments written in the script.  In every completed run the operations
    of the assembly step are exactly the chain [model_chain], in that
    order, each layer applied to the output of the one before it; the width
    of the dense layer is the dataset's number of labels, and the model is
    compiled with Adam at the configured learning rate and the
    mean-squared-error loss. *)
Theorem model_is_static_chain (L : Library) p (w : World L) :
  forallb layer_shape (trace (@script L p w)) = true /\
  forall tr w',
    completes script p w tt tr w' ->
    exists ogb_dataset dataset F n_out clusters,
    exists X_in A_in gcn_1 X_1 pool pooled X_1p A_1 gcn_2 X_2 gsp X_3,
    exists dense output model opt compiled summary,
      returned tr (OCall (Global "OGB") [ogb_dataset] []) dataset /\
      returned tr (OGetAttr dataset "n_node_features") F /\
      returned tr (OGetAttr dataset "n_labels") n_out /\
      pooled_pair tr pooled X_1p A_1 /\
      filter (in_phase Assembly) tr =
        model_chain F n_out clusters X_in A_in gcn_1 X_1 pool pooled X_1p A_1
          gcn_2 X_2 gsp X_3 dense output model opt compiled summary.
Proof.
  split.
  { revert p w.
    change (Emits layer_shape (@script L)).
    unfold script, call_global, apply_layer, invoke, getattr, getitem, print.
    emit. }
  intros tr w' H.
  destruct (script_completes_trace H) as (b & -> & _).
  exists (v_ogb_dataset b), (v_dataset b), (v_F b), (v_n_out b), (v_N b / 2).
  exists (v_X_in b), (v_A_in b), (v_gcn_1 b), (v_X_1 b), (v_pool b),
    (v_pooled b), (v_X_1p b), (v_A_1 b), (v_gcn_2 b), (v_X_2 b), (v_gsp b),
    (v_X_3 b).
  exists (v_dense b), (v_output b), (v_model b), (v_opt b), (v_compiled b),
    (v_summary b).
  split; [ in_script_trace | ].
  split; [ in_script_trace | ].
  split; [ in_script_trace | ].
  split; [ unfold pooled_pair; in_script_trace | ].
  unfold script_trace, load_trace, split_trace, build_trace, fit_trace,
    evaluate_trace.
  rewrite !filter_app, !filter_attr_events by reflexivity.
  reflexivity.
Qed.

Lemma model_is_static_chain_witness :
  forallb layer_shape (trace toy_run) = true /\
  exists ogb_dataset dataset F n_out clusters,
  exists X_in A_in gcn_1 X_1 pool pooled X_1p A_1 gcn_2 X_2 gsp X_3,
  exists dense output model opt compiled summary,
    returned (trace toy_run) (OCall (Global "OGB") [ogb_dataset] []) dataset /\
    returned (trace toy_run) (OGetAttr dataset "n_node_features") F /\
    returned (trace toy_run) (OGetAttr dataset "n_labels") n_out /\
    pooled_pair (trace toy_run) pooled X_1p A_1 /\
    filter (in_phase Assembly) (trace toy_run) =
      model_chain F n_out clusters X_in A_in gcn_1 X_1 pool pooled X_1p A_1
        gcn_2 X_2 gsp X_3 dense output model opt compiled summary.
Proof.
  destruct (@model_is_static_chain toy Toy.process tt) as [Hshape Hdone].
  split; [ exact Hshape | ].
  apply (Hdone (trace toy_run) (final toy_run)).
  vm_compute; reflexivity.
Defined.

(** ** Exceptions are not handled *)



(** ** The number of clusters *)

(** C8.  A completed run divides at the call that asks for the index
    split.  Before it, the script iterates over the dataset as loaded, whole,
    and reads the node count of every graph of it; [N] is the largest of
    these counts.  After it, the training, validation and test parts are
    selected out of that same dataset.  The pooling layer is built once,
    with [N // 2] clusters. *)
Theorem clusters_from_whole_dataset (L : Library) p (w : World L) tr w' :
  completes script p w tt tr w' ->
  exists ogb_dataset dataset graphs nodes N pool before idx after,
    tr = before ++ ev (OCall (Method ogb_dataset "get_idx_split") [] []) idx
                :: after /\
    returned before (OCall (Global "OGB") [ogb_dataset] []) dataset /\
    returned before (OIter dataset) (VList graphs) /\
    Forall2 (fun g n => returned before (OGetAttr g "n_nodes") (VInt n))
            graphs nodes /\
    In N nodes /\
    Forall (fun n => n <= N) nodes /\
    parts_of after idx dataset /\
    filter (global_named "MinCutPool") tr =
      [ ev (OCall (Global "MinCutPool") [VInt (N / 2)] []) pool ].
Proof.
  intros H.
  destruct (script_completes_trace H) as (b & -> & Hlen & Hmax & _).
  destruct (max_of_spec _ Hmax) as [Hin Hle].
  exists (v_ogb_dataset b), (v_dataset b), (v_graphs b), (v_nodes b), (v_N b),
    (v_pool b), (load_trace b), (v_idx b).
  eexists.
  split; [ reflexivity | ].
  split; [ unfold returned, load_trace; in_list | ].
  split; [ unfold returned, load_trace; in_list | ].
  split.
  { apply node_counts_in_trace; [ exact Hlen | ].
    intros e He; unfold load_trace.
    apply in_or_app; right; apply in_or_app; left; exact He. }
  split; [ exact Hin | ].
  split; [ exact Hle | ].
  split.
  { intros key [<- | [<- | [<- | []]]].
    - exists (v_idx_tr b), (v_dataset_tr b); split; unfold returned; in_list.
    - exists (v_idx_va b), (v_dataset_va b); split; unfold returned; in_list.
    - exists (v_idx_te b), (v_dataset_te b); split; unfold returned; in_list. }
  unfold script_trace, load_trace, split_trace, build_trace, fit_trace,
    evaluate_trace.
  rewrite !filter_app, !filter_attr_events by reflexivity.
  reflexivity.
Qed.

Lemma clusters_from_whole_dataset_witness :
  exists ogb_dataset dataset graphs nodes N pool before idx after,
    trace toy_run =
      before ++ ev (OCall (Method ogb_dataset "get_idx_split") [] []) idx
             :: after /\
    returned before (OCall (Global "OGB") [ogb_dataset] []) dataset /\
    returned before (OIter dataset) (VList graphs) /\
    Forall2 (fun g n => returned before (OGetAttr g "n_nodes") (VInt n))
            graphs nodes /\
    In N nodes /\
    Forall (fun n => n <= N) nodes /\
    parts_of after idx dataset /\
    filter (global_named "MinCutPool") (trace toy_run) =
      [ ev (OCall (Global "MinCutPool") [VInt (N / 2)] []) pool ].
Proof.
  apply (@clusters_from_whole_dataset toy Toy.process tt
           (trace toy_run) (final toy_run)).
  vm_compute; reflexivity.
Defined.

(** The architecture depends on held-out data: two datasets that differ in
    the one graph of the test split only give different numbers of
    clusters. *)
Example clusters_depend_on_test_graph :
  pools_built (Toy.graph 9 1) = [OCall (Global "MinCutPool") [VInt 4] []] /\
  pools_built (Toy.graph 3 1) = [OCall (Global "MinCutPool") [VInt 3] []].
Proof. split; vm_compute; reflexivity. Qed.

(** ** Early stopping and the number of epochs *)

(** C9.  In every completed run [fit] is given the configured number of
    epochs and one early-stopping callback, whose patience is the literal
    10, equal to the configured number of epochs.  With such a patience the
    training loop runs the full number of epochs, whatever the monitored
    quantity does. *)
Theorem early_stopping_never_cuts_training (L : Library) p (w : World L) tr w' :
  completes script p w tt tr w' ->
  exists patience stopper model loader kwargs history,
    early_stopping tr patience stopper /\
    returned tr (OCall (Method model "fit") [loader] kwargs) history /\
    kwarg "epochs" kwargs = Some (VInt epochs) /\
    kwarg "callbacks" kwargs = Some (VList [stopper]) /\
    patience = 10 /\
    patience = epochs /\
    forall verdict,
      epochs_trained verdict (Z.to_nat patience) (Z.to_nat epochs)
      = Z.to_nat epochs.
Proof.
  intros H.
  destruct (script_completes_trace H) as (b & -> & _).
  exists 10, (v_stopper b), (v_model b), (v_loader_tr b).
  eexists; exists (v_history b).
  split; [ unfold early_stopping; in_script_trace | ].
  split; [ in_script_trace | ].
  repeat split.
  intros verdict; apply patience_covers_epochs; reflexivity.
Qed.

Lemma early_stopping_never_cuts_training_witness :
  exists patience stopper model loader kwargs history,
    early_stopping (trace toy_run) patience stopper /\
    returned (trace toy_run) (OCall (Method model "fit") [loader] kwargs)
             history /\
    kwarg "epochs" kwargs = Some (VInt epochs) /\
    kwarg "callbacks" kwargs = Some (VList [stopper]) /\
    patience = 10 /\
    patience = epochs /\
    forall verdict,
      epochs_trained verdict (Z.to_nat patience) (Z.to_nat epochs)
      = Z.to_nat epochs.
Proof.
  apply (@early_stopping_never_cuts_training toy Toy.process tt
           (trace toy_run) (final toy_run)).
  vm_compute; reflexivity.
Defined.

(** ** One dataset identifier *)

(** C10.  The identifier is ['ogbg-molesol'].  In every run, completed or
    not, each call that opens the benchmark dataset or builds the evaluator
    passes that identifier and nothing else.  In a completed run there is
    exactly one call of each kind; the dataset opened under that name is the
    one wrapped, split and trained on, and the evaluator built under the
    same name is the one whose [eval] scores the predictions. *)
Theorem one_dataset_name (L : Library) p (w : World L) :
  dataset_name = "ogbg-molesol" /\
  forallb names_dataset (trace (@script L p w)) = true /\
  forall tr w',
    completes script p w tt tr w' ->
    exists ogb_dataset dataset dataset_tr evaluator arg ogb_score,
      filter (global_named "GraphPropPredDataset") tr =
        [ ev (OCall (Global "GraphPropPredDataset") []
                [("name", VStr dataset_name)]) ogb_dataset ] /\
      filter (global_named "Evaluator") tr =
        [ ev (OCall (Global "Evaluator") [] [("name", VStr dataset_name)])
             evaluator ] /\
      returned tr (OCall (Global "OGB") [ogb_dataset] []) dataset /\
      split_part tr "train" dataset dataset_tr /\
      returned tr (OCall (Method evaluator "eval") [arg] []) ogb_score.
Proof.
  split; [ reflexivity | split ].
  - revert p w.
    change (Emits names_dataset (@script L)).
    unfold script, call_global, apply_layer, invoke, getattr, getitem, print.
    emit.
  - intros tr w' H.
    destruct (script_completes_trace H) as (b & -> & _).
    exists (v_ogb_dataset b), (v_dataset b), (v_dataset_tr b),
      (v_evaluator b),
      (VDict [("y_true", v_y_true b); ("y_pred", v_y_pred b)]),
      (v_ogb_score b).
    repeat split; try in_script_trace.
    + unfold script_trace, load_trace, split_trace, build_trace, fit_trace,
        evaluate_trace.
      rewrite !filter_app, !filter_attr_events by reflexivity.
      reflexivity.
    + unfold script_trace, load_trace, split_trace, build_trace, fit_trace,
        evaluate_trace.
      rewrite !filter_app, !filter_attr_events by reflexivity.
      reflexivity.
    + exists (v_ogb_dataset b), (v_idx b), (v_idx_tr b).
      repeat split; in_script_trace.
Qed.

Lemma one_dataset_name_witness :
  dataset_name = "ogbg-molesol" /\
  forallb names_dataset (trace toy_run) = true /\
  exists ogb_dataset dataset dataset_tr evaluator arg ogb_score,
    filter (global_named "GraphPropPredDataset") (trace toy_run) =
      [ ev (OCall (Global "GraphPropPredDataset") []
              [("name", VStr dataset_name)]) ogb_dataset ] /\
    filter (global_named "Evaluator") (trace toy_run) =
      [ ev (OCall (Global "Evaluator") [] [("name", VStr dataset_name)])
           evaluator ] /\
    returned (trace toy_run) (OCall (Global "OGB") [ogb_dataset] []) dataset /\
    split_part (trace toy_run) "train" dataset dataset_tr /\
    returned (trace toy_run) (OCall (Method evaluator "eval") [arg] [])
             ogb_score.
Proof.
  destruct (@one_dataset_name toy Toy.process tt) as (Hname & Hall & Hdone).
  split; [ exact Hname | split; [ exact Hall | ] ].
  apply (Hdone (trace toy_run) (final toy_run)).
  vm_compute; reflexivity.
Defined.

(* ===================================================================== *)
(** * Part V: further properties of the script *)
(* ===================================================================== *)

(** ** An empty dataset *)

(** X1.  If the benchmark dataset opens, wraps and iterates, but yields no
    graph, the script stops right there: [max] of no node count raises
    [ValueError], after exactly these three operations and before anything
    is split or built. *)
Theorem empty_dataset_raises (L : Library) p (w : World L)
        ogb_dataset w1 dataset w2 w3 :
  handle L (OCall (Global "GraphPropPredDataset") []
              [("name", VStr dataset_name)]) w = (Returned ogb_dataset, w1) ->
  handle L (OCall (Global "OGB") [ogb_dataset] []) w1 = (Returned dataset, w2) ->
  handle L (OIter dataset) w2 = (Returned (VList []), w3) ->
  @script L p w =
    mkRun (Uncaught (VExn "ValueError"))
          [ ev (OCall (Global "GraphPropPredDataset") []
                  [("name", VStr dataset_name)]) ogb_dataset;
            ev (OCall (Global "OGB") [ogb_dataset] []) dataset;
            ev (OIter dataset) (VList []) ]
          w3.
Proof.
  intros H1 H2 H3.
  unfold_script.
  rewrite (bind_call_returned _ _ _ _ H1).
  rewrite (bind_call_returned _ _ _ _ H2).
  rewrite (bind_iterate_returned _ _ _ _ H3).
  reflexivity.
Qed.

Lemma empty_dataset_raises_witness :
  @script toy_empty Toy.process tt =
    @mkRun toy_empty unit (Uncaught (VExn "ValueError"))
          [ ev (OCall (Global "GraphPropPredDataset") []
                  [("name", VStr dataset_name)]) (Toy.benchmark []);
            ev (OCall (Global "OGB") [Toy.benchmark []] []) (VList []);
            ev (OIter (VList [])) (VList []) ]
          tt.
Proof.
  apply (@empty_dataset_raises toy_empty Toy.process tt
           (Toy.benchmark []) tt (VList []) tt tt); reflexivity.
Defined.

(** ** Control flow does not depend on data *)




(** ** Scoring waits for training *)

(** X5.  In every run, an operation of the scoring step (building the
    evaluator, predicting, stacking the targets, evaluating) is issued only
    after a call of [fit] has returned. *)
Theorem scoring_only_after_training (L : Library) p (w : World L) pre e post :
  trace (@script L p w) = pre ++ e :: post ->
  in_phase Scoring e = true ->
  exists model args kwargs history,
    In (ev (OCall (Method model "fit") args kwargs) history) pre.
Proof.
  intros Htr He.
  destruct (script_guarded L p w) as (sf & Hscan & _).
  destruct (fit_guard_sound _ Hscan _ _ _ Htr He) as [Habs | (f & Hin & Hf & Hr)];
    [ discriminate | ].
  destruct f as [op [v | x]]; [ | discriminate ].
  destruct op as [ [ name | o | o name ] args kwargs | | | ]; try discriminate.
  unfold method_named in Hf; cbn in Hf.
  apply String.eqb_eq in Hf; subst name.
  exists o, args, kwargs, v; exact Hin.
Qed.

Lemma scoring_only_after_training_witness :
  exists model args kwargs history,
    In (ev (OCall (Method model "fit") args kwargs) history)
       (firstn 41 (trace toy_run)).
Proof.
  apply (@scoring_only_after_training toy Toy.process tt
           (firstn 41 (trace toy_run))
           (nth 41 (trace toy_run) (OIter VNone, Raised VNone))
           (skipn 42 (trace toy_run))).
  - vm_compute; reflexivity.
  - vm_compute; reflexivity.
Defined.

(** ** The pooling layer must give two outputs *)

(** X6.  In every run: if a layer application returns and the iteration
    that unpacks its result yields other than two values, the run ends there
    with [ValueError]; no further operation is issued. *)
Theorem bad_unpack_raises (L : Library) p (w : World L)
        pre layer args kwargs pooled o xs post :
  trace (@script L p w) =
    pre ++ (OCall (Object layer) args kwargs, Returned pooled)
        :: (OIter o, Returned (VList xs)) :: post ->
  length xs <> 2%nat ->
  post = [] /\ outcome (@script L p w) = Uncaught (VExn "ValueError").
Proof.
  intros Htr Hlen.
  destruct (script_unpack_checked L p w) as (sf & Hscan & Hout).
  rewrite Htr in Hscan.
  destruct (unpack_step_sound _ _ _ _ _ _ _ _ _ Hscan Hlen) as [-> ->].
  split; [ reflexivity | ].
  destruct (outcome (script p w)) as [ [] | x ]; [ discriminate | ].
  cbn in Hout; subst x; reflexivity.
Qed.

Lemma bad_unpack_raises_witness :
  (@nil Event = [] /\
   outcome (@script toy_one_output Toy.process tt) = Uncaught (VExn "ValueError")).
Proof.
  eapply (@bad_unpack_raises toy_one_output Toy.process tt
            (firstn 22 (trace (@script toy_one_output Toy.process tt)))).
  - lazy; reflexivity.
  - cbn; discriminate.
Defined.

(** ** The number of edge features is never used *)

(** X7.  The script reads [dataset.n_edge_features] and never uses it:
    whatever value a library returns for that read, the run issues the same
    operations, gets the same answers to all others, leaves the libraries in
    the same state and ends the same way. *)
Theorem edge_features_are_dead (L : Library) (v : PyVal) p (w : World L) :
  Forall2 same_but_edges
    (trace (@script L p w))
    (trace (@script (with_edge_features L v) p w)) /\
  final (@script L p w) = final (@script (with_edge_features L v) p w) /\
  outcome (@script L p w) = outcome (@script (with_edge_features L v) p w).
Proof.
  destruct (script_ignores_edge_features L v p w) as (Htr & Hfin & Hout).
  repeat split; auto.
  destruct (outcome (script p w)) as [ [] | e1 ],
           (outcome (@script (with_edge_features L v) p w)) as [ [] | e2 ];
    cbn in Hout; try contradiction; subst; reflexivity.
Qed.

(** ** The clusters and the sizes of the graphs *)

(** X8.  In every completed run with [k] clusters, no graph of the dataset
    has more than [2 k + 1] nodes, and some graph has at least [2 k]. *)
Theorem clusters_bound_graph_sizes (L : Library) p (w : World L) tr w' :
  completes script p w tt tr w' ->
  exists ogb_dataset dataset graphs nodes k pool,
    returned tr (OCall (Global "OGB") [ogb_dataset] []) dataset /\
    returned tr (OIter dataset) (VList graphs) /\
    Forall2 (fun g n => returned tr (OGetAttr g "n_nodes") (VInt n))
            graphs nodes /\
    filter (global_named "MinCutPool") tr =
      [ ev (OCall (Global "MinCutPool") [VInt k] []) pool ] /\
    Forall (fun n => n <= 2 * k + 1) nodes /\
    Exists (fun n => 2 * k <= n) nodes.
Proof.
  intros H.
  destruct (script_completes_trace H) as (b & -> & Hlen & Hmax & _).
  destruct (max_of_spec _ Hmax) as [Hin Hle].
  exists (v_ogb_dataset b), (v_dataset b), (v_graphs b), (v_nodes b),
    (v_N b / 2), (v_pool b).
  split; [ in_script_trace | ].
  split; [ in_script_trace | ].
  split.
  { apply node_counts_in_trace; [ exact Hlen | ].
    intros e He; unfold script_trace, load_trace.
    apply in_or_app; left.
    apply in_or_app; right; apply in_or_app; left; exact He. }
  split.
  { unfold script_trace, load_trace, split_trace, build_trace, fit_trace,
      evaluate_trace.
    rewrite !filter_app, !filter_attr_events by reflexivity.
    reflexivity. }
  pose proof (Z.div_mod (v_N b) 2 ltac:(lia)) as Hdm.
  pose proof (Z.mod_pos_bound (v_N b) 2 ltac:(lia)) as Hmod.
  split.
  - eapply Forall_impl; [ | exact Hle ].
    intros n Hn; cbn beta in *; lia.
  - apply Exists_exists; exists (v_N b); split; [ exact Hin | lia ].
Qed.

Lemma clusters_bound_graph_sizes_witness :
  exists ogb_dataset dataset graphs nodes k pool,
    returned (trace toy_run) (OCall (Global "OGB") [ogb_dataset] []) dataset /\
    returned (trace toy_run) (OIter dataset) (VList graphs) /\
    Forall2 (fun g n => returned (trace toy_run) (OGetAttr g "n_nodes") (VInt n))
            graphs nodes /\
    filter (global_named "MinCutPool") (trace toy_run) =
      [ ev (OCall (Global "MinCutPool") [VInt k] []) pool ] /\
    Forall (fun n => n <= 2 * k + 1) nodes /\
    Exists (fun n => 2 * k <= n) nodes.
Proof.
  apply (@clusters_bound_graph_sizes toy Toy.process tt
           (trace toy_run) (final toy_run)).
  vm_compute; reflexivity.
Defined.

(** ** The maximum of the node counts *)

(** X9.  The maximum does not depend on the order in which the dataset
    yields its graphs. *)
Theorem max_of_permutation zs zs' :
  Permutation zs zs' -> max_of zs = max_of zs'.
Proof.
  intros Hperm.
  destruct (max_of zs) as [ n | ] eqn:E, (max_of zs') as [ n' | ] eqn:E'.
  - destruct (max_of_spec _ E) as [Hin Hle], (max_of_spec _ E') as [Hin' Hle'].
    rewrite Forall_forall in Hle, Hle'.
    f_equal; apply Z.le_antisymm.
    + apply Hle', (Permutation_in _ Hperm), Hin.
    + apply Hle, (Permutation_in _ (Permutation_sym Hperm)), Hin'.
  - apply max_of_none in E'; subst zs'.
    apply Permutation_sym, Permutation_nil in Hperm; subst; discriminate.
  - apply max_of_none in E; subst zs.
    apply Permutation_nil in Hperm; subst; discriminate.
  - reflexivity.
Qed.

Lemma max_of_permutation_witness : max_of [4; 9; 6] = max_of [9; 4; 6].
Proof. apply max_of_permutation; constructor. Defined.

(** X10.  The maximum over a dataset made of two non-empty parts is the
    larger of the maxima of the parts: [N] is at least the largest node
    count of the training part, and exceeds it exactly when a held-out graph
    is larger. *)
Theorem max_of_parts xs ys a b :
  max_of xs = Some a -> max_of ys = Some b ->
  max_of (xs ++ ys) = Some (Z.max a b).
Proof. apply max_of_app. Qed.

Lemma max_of_parts_witness : max_of ([4; 6] ++ [5; 9]) = Some (Z.max 6 9).
Proof. apply (@max_of_parts [4; 6] [5; 9] 6 9); reflexivity. Defined.

(** ** Where exceptions come from *)


